(** * Renewal-reminder scheduler of the subscription tracker

    A shallow embedding of the backend's reminder workflow
    (controllers/workflow.controllers.js), of the subscription-creation
    controller (controllers/subscriptions.controllers.js) and of the
    day arithmetic they rely on, together with the properties the
    specification states about them.

    Conventions.
    - Instants are integers: milliseconds since the epoch, as
      [Date.prototype.valueOf] gives them.
    - dayjs is an external library; its operations are modelled by what
      they compute on a host whose UTC offset does not change between the
      two instants involved (so the zone-delta term of [diff] is zero and
      adding n days adds n * 86400000 ms).
    - Quotients of millisecond counts by the length of a day are taken
      exactly; at the magnitude of real timestamps the double-precision
      quotient floors and ceils to the same integers.
    - [console.log] / [console.error] calls have no effect that a claim
      observes and are left out.
    - The workflow handler is modelled as one logical execution against the
      workflow host: [context.run] executes its step once, [context.sleep]
      lets the given number of seconds pass, as the file's own header
      describes the two operations. *)

From Stdlib Require Import ZArith List String Ascii Bool Lia DecimalString.
Import ListNotations.

Local Open Scope string_scope.
Local Open Scope Z_scope.

(** ** Day arithmetic *)

Module DateMath.

Definition MILLISECONDS_A_DAY : Z := 86400000.

(** [Math.floor (num / den)] and [Math.ceil (num / den)] for a positive [den]. *)
Definition Math_floor (num den : Z) : Z := num / den.
Definition Math_ceil (num den : Z) : Z := - ((- num) / den).

(** dayjs [Utils.absFloor]: [n < 0 ? Math.ceil(n) || 0 : Math.floor(n)]. *)
Definition absFloor (num den : Z) : Z :=
  if num <? 0 then Math_ceil num den else Math_floor num den.

(** [this.diff(that, "day")] *)
Definition diff_day (this that : Z) : Z :=
  absFloor (this - that) MILLISECONDS_A_DAY.

(** [this.isBefore(that)] *)
Definition isBefore (this that : Z) : bool := this <? that.

(** [today.add(n, "day")] *)
Definition add_day (today n : Z) : Z := today + n * MILLISECONDS_A_DAY.

(** The subscription card of the frontend (SubscriptionCard.jsx):
    [Math.ceil((renewal - today) / (1000 * 60 * 60 * 24))]. *)
Definition getDaysUntilRenewal (renewal today : Z) : Z :=
  let diffTime := renewal - today in
  Math_ceil diffTime (1000 * 60 * 60 * 24).

(** What the specification calls the ceiling of a duration in days: the
    least whole number of days that covers it. *)
Definition is_ceiling_days (duration n : Z) : Prop :=
  (n - 1) * MILLISECONDS_A_DAY < duration <= n * MILLISECONDS_A_DAY.

(** ... and the whole days that have fully elapsed in it. *)
Definition is_floor_days (duration n : Z) : Prop :=
  n * MILLISECONDS_A_DAY <= duration < (n + 1) * MILLISECONDS_A_DAY.

End DateMath.

(** ** Data model *)

(** A MongoDB ObjectId, by its string form ([toString] is then the identity). *)
Definition ObjectId : Type := string.

(** A thrown JavaScript [Error]: its [message] and, when present, the
    [statusCode] some errors carry. *)
Record Error : Type := mkError {
  message : string;
  statusCode : option Z
}.

(** The [status] enum of the subscription schema. *)
Inductive Status : Type := active | inactive | canceled.

Definition Status_eqb (a b : Status) : bool :=
  match a, b with
  | active, active | inactive, inactive | canceled, canceled => true
  | _, _ => false
  end.

(** The fields of the owner that [populate("user", "email username")] keeps. *)
Record User : Type := mkUser {
  email : string;
  username : string
}.

(** A subscription document. [U] is the type of its [user] field: an
    [ObjectId] as stored, [option User] once populated (null when the
    referenced user is gone). Amounts are in the currency's minor unit. *)
Record Subscription (U : Type) : Type := mkSubscription {
  _id : ObjectId;
  name : string;
  price : Z;
  currency : string;
  status : Status;
  renewalDate : Z;
  user : U
}.
Arguments mkSubscription {U}.
Arguments _id {U}.
Arguments name {U}.
Arguments price {U}.
Arguments currency {U}.
Arguments status {U}.
Arguments renewalDate {U}.
Arguments user {U}.

(** Rendering of an integer inside a template literal. *)
Definition show_Z (z : Z) : string := NilZero.string_of_int (Z.to_int z).

(** ** The reminder workflow: [sendReminders] *)

Module Workflow.

(** The argument object of [sendRenewalReminder]. *)
Record ReminderMail : Type := mkMail {
  mail_email : string;
  mail_username : string;
  subscriptionName : string;
  mail_renewalDate : Z;
  mail_price : Z;
  mail_currency : string;
  daysUntilRenewal : Z
}.

(** What the handler does to the outside, in order. *)
Inductive Step : Type :=
| Fetched (stepName : string) (id : ObjectId) (found : option (Subscription (option User)))
| Sent (stepName : string) (mail : ReminderMail)
| Slept (stepName : string) (seconds : Z).

(** The collaborators of one workflow run: the storage, read at an
    instant, and the mail transport. A step whose action throws fails
    the run with that error. *)
Record Host : Type := mkHost {
  findById : Z -> ObjectId -> Error + option (Subscription (option User));
  sendRenewalReminder : Z -> ReminderMail -> option Error
}.

Record RunState : Type := mkRunState {
  clock : Z;
  trace : list Step
}.

Inductive Result (A : Type) : Type :=
| Returned (a : A)
| Thrown (e : Error).
Arguments Returned {A}.
Arguments Thrown {A}.

(** State and exceptions of a run. *)
Definition W (A : Type) : Type := RunState -> Result A * RunState.

Definition ret {A} (a : A) : W A := fun s => (Returned a, s).

Definition bind {A B} (m : W A) (k : A -> W B) : W B :=
  fun s =>
    match m s with
    | (Returned a, s') => k a s'
    | (Thrown e, s') => (Thrown e, s')
    end.

Notation "x <- m ;; k" := (bind m (fun x => k))
  (at level 61, m at next level, right associativity).
Notation "m ;;; k" := (bind m (fun _ => k))
  (at level 61, right associativity).

Definition throw {A} (e : Error) : W A := fun s => (Thrown e, s).
Definition now : W Z := fun s => (Returned (clock s), s).
Definition record (st : Step) : W unit :=
  fun s => (Returned tt, mkRunState (clock s) (trace s ++ [st])).

(** [context.sleep(name, seconds)] *)
Definition context_sleep (stepName : string) (seconds : Z) : W unit :=
  fun s => (Returned tt,
            mkRunState (clock s + seconds * 1000) (trace s ++ [Slept stepName seconds])).

(** [context.run(name, () => Subscription.findById(id).populate(...))] *)
Definition run_findById (h : Host) (stepName : string) (id : ObjectId)
  : W (option (Subscription (option User))) :=
  t <- now ;;
  match findById h t id with
  | inl e => throw e
  | inr found => record (Fetched stepName id found) ;;; ret found
  end.

Definition TypeError_user_null : Error :=
  mkError "Cannot read properties of null (reading 'email')" None.

(** The object literal passed to [sendRenewalReminder]. *)
Definition reminder_for (u : User) (subscription : Subscription (option User))
    (days : Z) : ReminderMail :=
  mkMail (email u) (username u) (name subscription)
    (renewalDate subscription) (price subscription)
    (currency subscription) days.

(** [context.run(name, async () => { await sendRenewalReminder({...}) })]:
    the fields are read from the (populated) subscription held by the
    handler, [days] is the [daysUntilRenewal] passed. *)
Definition run_sendRenewalReminder (h : Host) (stepName : string)
    (subscription : Subscription (option User)) (days : Z) : W unit :=
  match user subscription with
  | None => throw TypeError_user_null
  | Some u =>
      let mail := reminder_for u subscription days in
      t <- now ;;
      match sendRenewalReminder h t mail with
      | Some e => throw e
      | None => record (Sent stepName mail)
      end
  end.

Definition REMINDER_DAYS : list Z := [7; 3; 1].

(** The object a run returns. *)
Record ReturnValue : Type := mkReturn {
  success : bool;
  ret_message : string;
  ret_daysUntilRenewal : option Z;
  scheduledIn : option string
}.

Definition fetchSubscriptionById (h : Host) (subscriptionId : ObjectId) :=
  run_findById h "get-subscription" subscriptionId.

Definition sendReminders (h : Host) (subscriptionId : ObjectId) : W ReturnValue :=
  subscription <- fetchSubscriptionById h subscriptionId ;;
  match subscription with
  | None => ret (mkReturn false "Subscription not found" None None)
  | Some subscription =>
    if negb (Status_eqb (status subscription) active) then
      ret (mkReturn false "Subscription is not active" None None)
    else
      let renewalDate := renewalDate subscription in
      today <- now ;;
      if DateMath.isBefore renewalDate today then
        ret (mkReturn false "Renewal date has passed" None None)
      else
        let daysUntilRenewal := DateMath.diff_day renewalDate today in
        if daysUntilRenewal <=? nth 0 REMINDER_DAYS 0 then
          run_sendRenewalReminder h "send-reminder-email" subscription daysUntilRenewal ;;;
          (if daysUntilRenewal >? 1 then
             match find (fun day => day <? daysUntilRenewal) REMINDER_DAYS with
             | Some nextReminderDay =>
                 if nextReminderDay =? 0 then ret tt
                 else
                   let daysToWait := daysUntilRenewal - nextReminderDay in
                   context_sleep "wait-for-next-reminder" (daysToWait * 24 * 60 * 60) ;;;
                   run_sendRenewalReminder h "send-next-reminder-email"
                     subscription nextReminderDay
             | None => ret tt
             end
           else ret tt) ;;;
          ret (mkReturn true ("Reminder sent for subscription " ++ subscriptionId)
                 (Some daysUntilRenewal) None)
        else
          let daysToWait := daysUntilRenewal - nth 0 REMINDER_DAYS 0 in
          context_sleep "wait-until-reminder-window" (daysToWait * 24 * 60 * 60) ;;;
          updatedSubscription <- run_findById h "re-fetch-subscription" subscriptionId ;;
          match updatedSubscription with
          | Some updatedSubscription =>
              if Status_eqb (status updatedSubscription) active then
                run_sendRenewalReminder h "send-first-reminder-email"
                  updatedSubscription (nth 0 REMINDER_DAYS 0)
              else ret tt
          | None => ret tt
          end ;;;
          ret (mkReturn true ("Reminder scheduled for subscription " ++ subscriptionId)
                 None (Some (show_Z daysToWait ++ " days")))
  end.

(** A run triggered at instant [t0]. *)
Definition run (h : Host) (t0 : Z) (subscriptionId : ObjectId)
  : Result ReturnValue * RunState :=
  sendReminders h subscriptionId (mkRunState t0 []).

(** Observations on a trace. *)
Definition mails (tr : list Step) : list ReminderMail :=
  flat_map (fun st => match st with Sent _ m => [m] | _ => [] end) tr.

Definition offsets_sent (tr : list Step) : list Z :=
  map daysUntilRenewal (mails tr).

Definition sleeps (tr : list Step) : list Z :=
  flat_map (fun st => match st with Slept _ secs => [secs] | _ => [] end) tr.

(** The largest checkpoint offset strictly below [d], as the
    specification words it. *)
Definition largest_offset_below (offsets : list Z) (d : Z) : option Z :=
  fold_right
    (fun o acc =>
       if o <? d then
         match acc with Some m => Some (Z.max o m) | None => Some o end
       else acc)
    None offsets.

Definition seconds_of_days (days : Z) : Z := days * 24 * 60 * 60.

(** The reminder step for [subscription] at instant [t] goes through: the
    owner is populated and the transport accepts the message. *)
Definition delivers (h : Host) (t : Z) (subscription : Subscription (option User))
    (days : Z) : Prop :=
  exists u, user subscription = Some u /\
            sendRenewalReminder h t (reminder_for u subscription days) = None.

End Workflow.

(** ** Triggering workflows: [scheduleReminderWorkflow] and the sweep *)

Module Dispatch.

(** The argument of [upstashWorkflowClient.trigger]. *)
Record TriggerRequest : Type := mkTrigger {
  url : string;
  body_subscriptionId : string
}.

(** The application's surroundings: the documents in storage, an outage
    of the storage (queries then reject with the error), and the workflow
    runs the workflow host has accepted so far, oldest first. *)
Record World : Type := mkWorld {
  subscriptions : list (Subscription ObjectId);
  dbFault : option Error;
  workflowRuns : list TriggerRequest
}.

(** What the code does not decide: the configured [SERVER_URL], whether
    the workflow host accepts a trigger (given the runs it already has),
    and the document that [Subscription.create] validates and builds. *)
Record Services : Type := mkServices {
  SERVER_URL : string;
  upstashTrigger : list TriggerRequest -> TriggerRequest -> option Error;
  mongoCreate : list (Subscription ObjectId) -> Subscription ObjectId
                -> Error + Subscription ObjectId
}.

Record ScheduleResult : Type := mkScheduled {
  sched_success : bool;
  sched_message : string
}.

(** [scheduleReminderWorkflow]: a thrown error is logged and re-thrown. *)
Definition scheduleReminderWorkflow (svc : Services) (subscriptionId : ObjectId)
    (w : World) : (Error + ScheduleResult) * World :=
  let workflowUrl := SERVER_URL svc ++ "/api/v1/workflow/send-reminders" in
  let request := mkTrigger workflowUrl subscriptionId in
  match upstashTrigger svc (workflowRuns w) request with
  | None =>
      (inr (mkScheduled true "Reminder workflow scheduled"),
       mkWorld (subscriptions w) (dbFault w) (workflowRuns w ++ [request]))
  | Some error => (inl error, w)
  end.

(** One element of the [results] array of the sweep. *)
Record ResultEntry : Type := mkEntry {
  subscriptionId : ObjectId;
  entry_status : string;
  entry_error : option string
}.

(** Bodies passed to [res.json]. *)
Inductive Json : Type :=
| JError (error : string)
| JCreated (data : Subscription ObjectId)
| JProcessed (msg : string) (results : list ResultEntry).

(** How a controller ends: a response, or [next(error)]. *)
Inductive Outcome : Type :=
| Responded (code : Z) (body : Json)
| Next (error : Error).

(** [Subscription.find({status: "active", renewalDate: {$gte, $lte}})] *)
Definition find_due (from upto : Z) (docs : list (Subscription ObjectId))
  : list (Subscription ObjectId) :=
  filter (fun s => Status_eqb (status s) active
                   && (from <=? renewalDate s) && (renewalDate s <=? upto)) docs.

(** The [for ... of] loop of the sweep, pushing onto [results]. *)
Fixpoint trigger_each (svc : Services) (subs : list (Subscription ObjectId))
    (results : list ResultEntry) (w : World) : list ResultEntry * World :=
  match subs with
  | [] => (results, w)
  | subscription :: rest =>
      match scheduleReminderWorkflow svc (_id subscription) w with
      | (inr _, w') =>
          trigger_each svc rest
            (results ++ [mkEntry (_id subscription) "scheduled" None]) w'
      | (inl error, w') =>
          trigger_each svc rest
            (results ++ [mkEntry (_id subscription) "failed" (Some (message error))]) w'
      end
  end.

Definition show_length {A} (l : list A) : string :=
  NilEmpty.string_of_uint (Nat.to_uint (List.length l)).

(** [processAllSubscriptionReminders], called at instant [today]. *)
Definition processAllSubscriptionReminders (svc : Services) (today : Z) (w : World)
  : Outcome * World :=
  let reminderWindowEnd := DateMath.add_day today (nth 0 Workflow.REMINDER_DAYS 0) in
  match dbFault w with
  | Some error => (Next error, w)
  | None =>
      let subscriptions := find_due today reminderWindowEnd (subscriptions w) in
      let '(results, w') := trigger_each svc subscriptions [] w in
      (Responded 200
         (JProcessed ("Processed " ++ show_length subscriptions ++ " subscriptions")
            results),
       w')
  end.

(** Runs the workflow host holds for one subscription. *)
Definition runs_for (id : ObjectId) (w : World) : list TriggerRequest :=
  filter (fun r => String.eqb (body_subscriptionId r) id) (workflowRuns w).

Definition request_for (svc : Services) (id : ObjectId) : TriggerRequest :=
  mkTrigger (SERVER_URL svc ++ "/api/v1/workflow/send-reminders") id.

(** The entry the sweep reports for a subscription: "scheduled" when the
    workflow host accepted its trigger, "failed" with the message of the
    error the trigger threw otherwise. *)
Definition entry_ok (svc : Services) (s : Subscription ObjectId) (e : ResultEntry)
  : Prop :=
  subscriptionId e = _id s /\
  ((entry_status e = "scheduled" /\ entry_error e = None /\
    exists runs, upstashTrigger svc runs (request_for svc (_id s)) = None) \/
   (entry_status e = "failed" /\
    exists runs err,
      upstashTrigger svc runs (request_for svc (_id s)) = Some err /\
      entry_error e = Some (message err))).

Definition is_scheduled (e : ResultEntry) : bool :=
  String.eqb (entry_status e) "scheduled".

End Dispatch.

(** ** Creating a subscription: [createSubscription] *)

Module Subscriptions.
Import Dispatch.

(** [req.user], set by the auth middleware. *)
Record AuthUser : Type := mkAuthUser {
  auth_id : option ObjectId
}.

Record Request : Type := mkRequest {
  req_body : Subscription ObjectId;
  req_user : option AuthUser
}.

(** [{ ...req.body, user: req.user._id }] *)
Definition with_user (body : Subscription ObjectId) (uid : ObjectId)
  : Subscription ObjectId :=
  mkSubscription (_id body) (name body) (price body) (currency body)
    (status body) (renewalDate body) uid.

(** [Subscription.create(doc)] *)
Definition Subscription_create (svc : Services) (doc : Subscription ObjectId)
    (w : World) : (Error + Subscription ObjectId) * World :=
  match dbFault w with
  | Some error => (inl error, w)
  | None =>
      match mongoCreate svc (subscriptions w) doc with
      | inl error => (inl error, w)
      | inr subscription =>
          (inr subscription,
           mkWorld (subscriptions w ++ [subscription]) (dbFault w) (workflowRuns w))
      end
  end.

(** [a || b] on an optional number and on a string. *)
Definition or_number (a : option Z) (b : Z) : Z :=
  match a with
  | Some n => if n =? 0 then b else n
  | None => b
  end.

Definition or_string (a b : string) : string :=
  if String.eqb a "" then b else a.

Definition createSubscription (svc : Services) (req : Request) (w : World)
  : Outcome * World :=
  match req_user req with
  | None => (Responded 401 (JError "User not authenticated"), w)
  | Some u =>
    match auth_id u with
    | None => (Responded 401 (JError "User not authenticated"), w)
    | Some uid =>
      match Subscription_create svc (with_user (req_body req) uid) w with
      | (inl error, w1) =>
          (Responded (or_number (statusCode error) 500)
             (JError (or_string (message error) "Failed to create subscription")),
           w1)
      | (inr subscription, w1) =>
          let w2 :=
            match scheduleReminderWorkflow svc (_id subscription) w1 with
            | (inr _, w') => w'
            | (inl workflowError, w') => w'
            end in
          (Responded 201 (JCreated subscription), w2)
      end
    end
  end.

End Subscriptions.

(** ** Concrete scenarios *)

Module Scenarios.
Import Workflow Dispatch Subscriptions.

Definition DAY : Z := DateMath.MILLISECONDS_A_DAY.
Definition HOUR : Z := 3600000.

Definition alice : User := mkUser "alice@example.com" "alice".

Definition netflix (renewal : Z) (st : Status) : Subscription (option User) :=
  mkSubscription "sub1" "Netflix" 1599 "USD" st renewal (Some alice).

(** Storage in which "sub1" stays active; every mail is delivered. *)
Definition steady_host (renewal : Z) : Host :=
  mkHost
    (fun _ id => inr (if String.eqb id "sub1" then Some (netflix renewal active) else None))
    (fun _ _ => None).

(** Storage in which "sub1" is canceled from instant [tc] on. *)
Definition canceling_host (renewal tc : Z) : Host :=
  mkHost
    (fun t id =>
       inr (if String.eqb id "sub1"
            then Some (netflix renewal (if t <? tc then active else canceled))
            else None))
    (fun _ _ => None).

(** Storage from which "sub1" is deleted at instant [tc]. *)
Definition deleting_host (renewal tc : Z) : Host :=
  mkHost
    (fun t id =>
       inr (if String.eqb id "sub1" && (t <? tc)
            then Some (netflix renewal active)
            else None))
    (fun _ _ => None).

(** Storage without "sub1". *)
Definition empty_host : Host :=
  mkHost (fun _ _ => inr None) (fun _ _ => None).

(** A workflow host that accepts every trigger; [Subscription.create]
    stores the document as given. *)
Definition accepting : Services :=
  mkServices "http://localhost:5500" (fun _ _ => None) (fun _ doc => inr doc).

(** A workflow host that rejects every trigger. *)
Definition rejecting : Services :=
  mkServices "http://localhost:5500"
    (fun _ _ => Some (mkError "fetch failed" None)) (fun _ doc => inr doc).

(** A workflow host that rejects the triggers for "sub2" only. *)
Definition rejecting_sub2 : Services :=
  mkServices "http://localhost:5500"
    (fun _ r => if String.eqb (body_subscriptionId r) "sub2"
                then Some (mkError "fetch failed" None) else None)
    (fun _ doc => inr doc).

Definition stored (id : ObjectId) (renewal : Z) (st : Status) : Subscription ObjectId :=
  mkSubscription id "Netflix" 1599 "USD" st renewal "user1".

Definition one_due : World :=
  mkWorld [stored "sub1" (3 * DAY) active] None [].

Definition three_due : World :=
  mkWorld [stored "sub1" (3 * DAY) active; stored "sub2" (4 * DAY) active;
           stored "sub3" (5 * DAY) active; stored "sub4" (20 * DAY) active;
           stored "sub5" (2 * DAY) canceled] None [].

Definition create_request : Request :=
  mkRequest (stored "sub9" (30 * DAY) active) (Some (mkAuthUser (Some "user1"))).

End Scenarios.

(** ** The other handlers of the workflow controller *)

Module Handlers.
Import Dispatch.

(** [Subscription.findById(id)] on the stored documents. *)
Definition findDoc (id : ObjectId) (docs : list (Subscription ObjectId))
  : option (Subscription ObjectId) :=
  find (fun s => String.eqb (_id s) id) docs.

(** [.populate("user", "email username")]: the owner's id is replaced by
    the owner's document, null when there is none. *)
Definition populate (users : ObjectId -> option User) (doc : Subscription ObjectId)
  : Subscription (option User) :=
  mkSubscription (_id doc) (name doc) (price doc) (currency doc) (status doc)
    (renewalDate doc) (users (user doc)).

(** [Subscription.findById(id).populate("user", "email username")] against
    the storage of a world. *)
Definition findById_populated (users : ObjectId -> option User) (w : World)
    (id : ObjectId) : Error + option (Subscription (option User)) :=
  match dbFault w with
  | Some error => inl error
  | None => inr (option_map (populate users) (findDoc id (subscriptions w)))
  end.

(** The workflow's collaborators when the storage is that of a world which
    does not change while the run lasts. *)
Definition storage_host (users : ObjectId -> option User)
    (mailer : Z -> Workflow.ReminderMail -> option Error) (w : World) : Workflow.Host :=
  Workflow.mkHost (fun _ id => findById_populated users w id) mailer.

(** Bodies passed to [res.json] by the handlers below. *)
Inductive Body : Type :=
| BError (error : string)
| BMessage (msg : string)
| BTriggered (msg : string) (sub_name : string) (sub_renewalDate : Z) (userEmail : string)
| BData (data : list (Subscription ObjectId))
| BPlain (msg : string).

(** A response, or [next(error)]. *)
Inductive Reply : Type :=
| Replied (code : Z) (body : Body)
| Forwarded (error : Error).

Definition TypeError_email_of_null : Error :=
  mkError "Cannot read properties of null (reading 'email')" None.

(** [triggerReminderManually], with [req.params.subscriptionId]. The
    response object is built after the workflow has been triggered. *)
Definition triggerReminderManually (users : ObjectId -> option User) (svc : Services)
    (subscriptionId : string) (w : World) : Reply * World :=
  if String.eqb subscriptionId "" then
    (Replied 400 (BError "Subscription ID is required"), w)
  else
    match findById_populated users w subscriptionId with
    | inl error => (Forwarded error, w)
    | inr None => (Replied 404 (BError "Subscription not found"), w)
    | inr (Some subscription) =>
        match scheduleReminderWorkflow svc subscriptionId w with
        | (inl error, w') => (Forwarded error, w')
        | (inr _, w') =>
            match user subscription with
            | None => (Forwarded TypeError_email_of_null, w')
            | Some u =>
                (Replied 200
                   (BTriggered
                      ("Reminder workflow triggered for subscription " ++ subscriptionId)
                      (name subscription) (renewalDate subscription) (email u)),
                 w')
            end
        end
    end.

(** [sendTestReminder] at instant [today]: the outcome and the mails
    handed to the transport. *)
Definition sendTestReminder (users : ObjectId -> option User)
    (mailer : Z -> Workflow.ReminderMail -> option Error)
    (today : Z) (subscriptionId : string) (w : World)
  : Reply * list Workflow.ReminderMail :=
  match findById_populated users w subscriptionId with
  | inl error => (Forwarded error, [])
  | inr None => (Replied 404 (BError "Subscription not found"), [])
  | inr (Some subscription) =>
      let renewalDate := renewalDate subscription in
      let daysUntilRenewal := DateMath.diff_day renewalDate today in
      match user subscription with
      | None => (Forwarded TypeError_email_of_null, [])
      | Some u =>
          let mail :=
            Workflow.reminder_for u subscription (Z.max daysUntilRenewal 1) in
          match mailer today mail with
          | Some error => (Forwarded error, [])
          | None =>
              (Replied 200 (BMessage ("Test reminder email sent to " ++ email u)), [mail])
          end
      end
  end.

End Handlers.

(** ** The other handlers of the subscriptions controller *)

Module SubscriptionHandlers.
Import Dispatch Subscriptions Handlers.

Definition TypeError_id_of_null : Error :=
  mkError "Cannot read properties of null (reading '_id')" None.
Definition TypeError_toString_of_undefined : Error :=
  mkError "Cannot read properties of undefined (reading 'toString')" None.

(** The [catch] of both handlers: a 500 with the error's message. *)
Definition caught (error : Error) (fallback : string) : Reply :=
  Replied 500 (BError (or_string (message error) fallback)).

(** [getUserSubscriptions], with [req.user] and [req.params.userId]. The
    ownership test reads [req.user._id] before the handler tests
    [req.user]. *)
Definition getUserSubscriptions (requester : option AuthUser) (userId : string) (w : World)
  : Reply :=
  match requester with
  | None => caught TypeError_id_of_null "Failed to get subscriptions"
  | Some u =>
      match auth_id u with
      | None => caught TypeError_toString_of_undefined "Failed to get subscriptions"
      | Some uid =>
          if negb (String.eqb uid userId) then
            Replied 403 (BError "Forbidden: You can only access your own subscriptions")
          else
            match dbFault w with
            | Some error => caught error "Failed to get subscriptions"
            | None =>
                Replied 200
                  (BData (filter (fun s => String.eqb (user s) uid)
                            (subscriptions w)))
            end
      end
  end.

(** [Subscription.findByIdAndDelete(id)]: the first document with that id
    is removed. *)
Fixpoint deleteDoc (id : ObjectId) (docs : list (Subscription ObjectId))
  : list (Subscription ObjectId) :=
  match docs with
  | [] => []
  | s :: rest => if String.eqb (_id s) id then rest else s :: deleteDoc id rest
  end.

(** [deleteSubscription], with [req.user] and [req.params.subscriptionId]. *)
Definition deleteSubscription (requester : option AuthUser) (subscriptionId : string)
    (w : World) : Reply * World :=
  match requester with
  | None => (Replied 401 (BError "User not authenticated"), w)
  | Some u =>
      match auth_id u with
      | None => (Replied 401 (BError "User not authenticated"), w)
      | Some uid =>
          match dbFault w with
          | Some error => (caught error "Failed to delete subscription", w)
          | None =>
              match findDoc subscriptionId (subscriptions w) with
              | None => (Replied 404 (BError "Subscription not found"), w)
              | Some subscription =>
                  if negb (String.eqb (user subscription) uid) then
                    (Replied 403
                       (BError "Forbidden: You can only delete your own subscriptions"),
                     w)
                  else
                    (Replied 200 (BMessage "Subscription deleted successfully"),
                     mkWorld (deleteDoc subscriptionId (subscriptions w))
                       (dbFault w) (workflowRuns w))
              end
          end
      end
  end.

End SubscriptionHandlers.

(** ** The [authorize] middleware *)

Module Auth.
Import Dispatch Subscriptions Handlers.

(** [s.split(sep)] for a one-character separator. *)
Fixpoint split (sep : Ascii.ascii) (s : string) : list string :=
  match s with
  | EmptyString => [EmptyString]
  | String c rest =>
      if Ascii.eqb c sep then EmptyString :: split sep rest
      else
        match split sep rest with
        | [] => [String c EmptyString]
        | word :: words => String c word :: words
        end
  end.

(** Whether a character occurs in a string. *)
Fixpoint occurs (c : Ascii.ascii) (s : string) : bool :=
  match s with
  | EmptyString => false
  | String c' rest => Ascii.eqb c' c || occurs c rest
  end.

(** What the middleware reads of a request: the [Authorization] header and
    the [token] cookie. *)
Record Credentials : Type := mkCredentials {
  authorization : option string;
  cookie_token : option string
}.

(** What the middleware calls: [jwt.verify] (None when it throws), giving
    the [userId] of the payload, and [User.findById]. *)
Record AuthServices : Type := mkAuthServices {
  jwt_verify : string -> option ObjectId;
  User_findById : ObjectId -> Error + option AuthUser
}.

(** How the middleware ends: a response, or [next()] with [req.user] set. *)
Inductive Verdict : Type :=
| Rejected (code : Z) (body : Body)
| Passed (user : option AuthUser).

(** A string in a condition. *)
Definition truthy (s : option string) : bool :=
  match s with
  | Some s => negb (String.eqb s "")
  | None => false
  end.

(** The token the middleware picks, [None] for [undefined]. *)
Definition token_of (c : Credentials) : option string :=
  match authorization c with
  | Some header =>
      if negb (String.eqb header "") && String.prefix "Bearer" header then
        nth_error (split " "%char header) 1
      else if truthy (cookie_token c) then cookie_token c else None
  | None => if truthy (cookie_token c) then cookie_token c else None
  end.

Definition authorize (a : AuthServices) (c : Credentials) : Verdict :=
  let token := token_of c in
  if negb (truthy token) then Rejected 401 (BPlain "unauthorized")
  else
    match token with
    | None => Rejected 401 (BPlain "unauthorized")
    | Some token =>
        match jwt_verify a token with
        | None => Rejected 401 (BPlain "Invalid or expired token")
        | Some userId =>
            match User_findById a userId with
            | inl _ => Rejected 401 (BPlain "Invalid or expired token")
            | inr user => Passed user
            end
        end
    end.

(** A route [router.post(path, authorize, handler)]: the handler runs when
    the middleware calls [next()]. *)
Definition guarded {A} (a : AuthServices) (c : Credentials)
    (handler : option AuthUser -> A) : Verdict + A :=
  match authorize a c with
  | Passed user => inr (handler user)
  | rejected => inl rejected
  end.

End Auth.

(** ** The subscription card of the frontend *)

Module Card.

(** The CSS classes [getStatusClass] chooses from. *)
Inductive StatusClass : Type :=
| status_canceled | status_inactive | status_warning | status_overdue | status_active.

(** [getStatusClass] of SubscriptionCard.jsx, rendered at instant [today]. *)
Definition getStatusClass (st : Status) (renewalDate today : Z) : StatusClass :=
  let daysUntil := DateMath.getDaysUntilRenewal renewalDate today in
  if Status_eqb st canceled then status_canceled
  else if Status_eqb st inactive then status_inactive
  else if (daysUntil <=? 7) && (daysUntil >? 0) then status_warning
  else if daysUntil <=? 0 then status_overdue
  else status_active.

End Card.

(** ** More scenarios *)

Module MoreScenarios.
Import Workflow Dispatch Subscriptions Handlers Auth Scenarios.

(** The accounts: "user1" is alice, nobody else exists. *)
Definition accounts (id : ObjectId) : option User :=
  if String.eqb id "user1" then Some alice else None.

Definition delivering : Z -> ReminderMail -> option Error := fun _ _ => None.


(** Tokens "tok1" and "tok2" verify, for "user1" and for an account that
    has been removed. *)
Definition tokens : AuthServices :=
  mkAuthServices
    (fun t => if String.eqb t "tok1" then Some "user1"
              else if String.eqb t "tok2" then Some "user2" else None)
    (fun id => inr (if String.eqb id "user1" then Some (mkAuthUser (Some "user1"))
                    else None)).

Definition as_user1 : option AuthUser := Some (mkAuthUser (Some "user1")).
Definition as_user7 : option AuthUser := Some (mkAuthUser (Some "user7")).

End MoreScenarios.

(** * Properties *)

(** ** Day arithmetic *)

Module DateMathFacts.
Import DateMath.

Lemma Math_floor_spec (num : Z) : is_floor_days num (Math_floor num MILLISECONDS_A_DAY).
Proof.
  unfold is_floor_days, Math_floor, MILLISECONDS_A_DAY.
  pose proof (Z.div_mod num 86400000 ltac:(lia)) as E.
  pose proof (Z.mod_pos_bound num 86400000 ltac:(lia)) as B.
  lia.
Qed.

Lemma Math_ceil_spec (num : Z) : is_ceiling_days num (Math_ceil num MILLISECONDS_A_DAY).
Proof.
  unfold is_ceiling_days, Math_ceil, MILLISECONDS_A_DAY.
  pose proof (Z.div_mod (- num) 86400000 ltac:(lia)) as E.
  pose proof (Z.mod_pos_bound (- num) 86400000 ltac:(lia)) as B.
  lia.
Qed.

Lemma is_floor_days_unique (duration n m : Z) :
  is_floor_days duration n -> is_floor_days duration m -> n = m.
Proof. unfold is_floor_days, MILLISECONDS_A_DAY. intros Hn Hm. nia. Qed.

Lemma is_ceiling_days_unique (duration n m : Z) :
  is_ceiling_days duration n -> is_ceiling_days duration m -> n = m.
Proof. unfold is_ceiling_days, MILLISECONDS_A_DAY. intros Hn Hm. nia. Qed.

Lemma diff_day_nonneg (this that : Z) : that <= this -> 0 <= diff_day this that.
Proof.
  intros H. unfold diff_day, absFloor.
  destruct (Z.ltb_spec (this - that) 0) as [Hneg | Hpos]; [lia |].
  pose proof (Math_floor_spec (this - that)) as F.
  unfold is_floor_days, MILLISECONDS_A_DAY in F. unfold MILLISECONDS_A_DAY. lia.
Qed.

Lemma diff_day_negative (this that : Z) : diff_day this that < 0 -> this < that.
Proof.
  intros H. destruct (Z_lt_le_dec this that) as [L | G]; [exact L |].
  pose proof (diff_day_nonneg this that G). lia.
Qed.


Lemma diff_day_floor (this that : Z) :
  that <= this -> is_floor_days (this - that) (diff_day this that).
Proof.
  intros H. unfold diff_day, absFloor.
  destruct (Z.ltb_spec (this - that) 0) as [Hneg | Hpos]; [lia |].
  apply Math_floor_spec.
Qed.

Lemma diff_day_positive (this that : Z) : 0 < diff_day this that -> that < this.
Proof.
  intros H. destruct (Z_lt_le_dec that this) as [L | G]; [exact L |].
  exfalso. unfold diff_day, absFloor in H.
  destruct (Z.ltb_spec (this - that) 0) as [Hneg | Hpos].
  - pose proof (Math_ceil_spec (this - that)) as C.
    unfold is_ceiling_days, MILLISECONDS_A_DAY in C.
    unfold MILLISECONDS_A_DAY in H. lia.
  - assert (this - that = 0) as E by lia. rewrite E in H.
    vm_compute in H. discriminate H.
Qed.

(** A renewal 6.2 days away. *)
Example diff_day_6_2 : diff_day 535680000 0 = 6.
Proof. reflexivity. Qed.

Example getDaysUntilRenewal_6_2 : getDaysUntilRenewal 535680000 0 = 7.
Proof. reflexivity. Qed.

(** Renewals exactly N days ahead. *)
Example diff_day_whole_days :
  map (fun n => diff_day (n * MILLISECONDS_A_DAY) 0) [0; 1; 2; 3; 6; 7; 8; 30]
  = [0; 1; 2; 3; 6; 7; 8; 30].
Proof. reflexivity. Qed.

(** C2, as stated, fails: the workflow's day count is not the ceiling of
    the remaining duration. A renewal 6.2 days ahead counts 6 days. *)
Lemma diff_day_is_not_ceiling :
  ~ (forall renewalDate now : Z,
        now < renewalDate ->
        is_ceiling_days (renewalDate - now) (diff_day renewalDate now)).
Proof.
  intros claim.
  specialize (claim 535680000 0 ltac:(lia)).
  rewrite diff_day_6_2 in claim.
  unfold is_ceiling_days, MILLISECONDS_A_DAY in claim. lia.
Qed.

(** C2 (amended): for a renewal date strictly later than now, the
    workflow's [daysUntilRenewal] (dayjs [diff] in days) is the floor of
    the remaining duration in days, a partial day being dropped; the
    frontend card's [getDaysUntilRenewal] is its ceiling; and the
    "renewal has passed" test [isBefore] holds iff renewalDate < now. *)
Theorem days_until_floor_backend_ceiling_frontend (renewalDate now : Z) :
  (now < renewalDate ->
   is_floor_days (renewalDate - now) (diff_day renewalDate now) /\
   is_ceiling_days (renewalDate - now) (getDaysUntilRenewal renewalDate now)) /\
  (isBefore renewalDate now = true <-> renewalDate < now).
Proof.
  split.
  - intros H. split.
    + apply diff_day_floor. lia.
    + apply Math_ceil_spec.
  - unfold isBefore. apply Z.ltb_lt.
Qed.

Lemma days_until_floor_backend_ceiling_frontend_witness :
  0 < 535680000 /\
  is_floor_days (535680000 - 0) 6 /\
  is_ceiling_days (535680000 - 0) 7 /\
  diff_day 535680000 0 = 6 /\
  getDaysUntilRenewal 535680000 0 = 7.
Proof.
  assert (0 < 535680000) as H by lia.
  destruct (days_until_floor_backend_ceiling_frontend 535680000 0) as [Hdays _].
  destruct (Hdays H) as [Hfloor Hceil].
  split; [exact H |]. split; [exact Hfloor |]. split; [exact Hceil |].
  split; reflexivity.
Defined.

End DateMathFacts.

(** ** The reminder workflow *)

Module WorkflowFacts.
Import Workflow Scenarios.

Ltac run_steps :=
  cbv beta iota delta
    [run sendReminders fetchSubscriptionById run_findById run_sendRenewalReminder
     context_sleep bind ret throw now record clock trace].

(** Same, through the [let]s, the status test and the pairs, leaving the
    day count, [find] and the strings alone. *)
Ltac run_eval :=
  cbv beta iota zeta delta
    [run sendReminders fetchSubscriptionById run_findById run_sendRenewalReminder
     context_sleep bind ret throw now record clock trace
     Status_eqb negb fst snd].

Example run_10_days :
  run (steady_host (10 * DAY)) 0 "sub1" =
  (Returned (mkReturn true "Reminder scheduled for subscription sub1" None (Some "3 days")),
   mkRunState (3 * DAY)
     [Fetched "get-subscription" "sub1" (Some (netflix (10 * DAY) active));
      Slept "wait-until-reminder-window" 259200;
      Fetched "re-fetch-subscription" "sub1" (Some (netflix (10 * DAY) active));
      Sent "send-first-reminder-email"
        (reminder_for alice (netflix (10 * DAY) active) 7)]).
Proof. vm_compute. reflexivity. Qed.

Example run_7_days :
  offsets_sent (trace (snd (run (steady_host (7 * DAY)) 0 "sub1"))) = [7; 3]
  /\ sleeps (trace (snd (run (steady_host (7 * DAY)) 0 "sub1"))) = [4 * 86400].
Proof. vm_compute. split; reflexivity. Qed.

Example run_5_days :
  offsets_sent (trace (snd (run (steady_host (5 * DAY)) 0 "sub1"))) = [5; 3]
  /\ sleeps (trace (snd (run (steady_host (5 * DAY)) 0 "sub1"))) = [2 * 86400].
Proof. vm_compute. split; reflexivity. Qed.

Example run_1_day :
  offsets_sent (trace (snd (run (steady_host (1 * DAY)) 0 "sub1"))) = [1]
  /\ sleeps (trace (snd (run (steady_host (1 * DAY)) 0 "sub1"))) = [].
Proof. vm_compute. split; reflexivity. Qed.

Lemma REMINDER_DAYS_0 : nth 0 REMINDER_DAYS 0 = 7.
Proof. reflexivity. Qed.

Lemma Status_eqb_active (st : Status) : Status_eqb st active = true <-> st = active.
Proof. destruct st; cbn; split; congruence. Qed.

(** C7: when the subscription is absent from storage, or present with a
    status other than active, the run returns normally (no error is
    thrown) with a "skipped" result ([success] false and the reason),
    having sent no reminder and slept not at all. *)
Theorem absent_or_inactive_is_skipped (h : Host) (t0 : Z) (id : ObjectId) :
  (findById h t0 id = inr None \/
   exists s, findById h t0 id = inr (Some s) /\ status s <> active) ->
  exists v st,
    run h t0 id = (Returned v, st) /\
    success v = false /\
    (ret_message v = "Subscription not found" \/
     ret_message v = "Subscription is not active") /\
    mails (trace st) = [] /\ sleeps (trace st) = [] /\ clock st = t0.
Proof.
  intros [H | [s [H Hs]]]; run_steps; rewrite H; cbn.
  - eexists _, _. split; [reflexivity |]. cbn. auto 10.
  - destruct (Status_eqb (status s) active) eqn:E.
    + apply Status_eqb_active in E. contradiction.
    + cbn. eexists _, _. split; [reflexivity |]. cbn. auto 10.
Qed.

Lemma absent_or_inactive_is_skipped_witness :
  (findById (canceling_host (5 * DAY) 0) 0 "sub1" = inr None \/
   exists s, findById (canceling_host (5 * DAY) 0) 0 "sub1" = inr (Some s) /\
             status s <> active) /\
  exists v st,
    run (canceling_host (5 * DAY) 0) 0 "sub1" = (Returned v, st) /\
    success v = false /\
    (ret_message v = "Subscription not found" \/
     ret_message v = "Subscription is not active") /\
    mails (trace st) = [] /\ sleeps (trace st) = [] /\ clock st = 0.
Proof.
  assert (findById (canceling_host (5 * DAY) 0) 0 "sub1" = inr None \/
          exists s, findById (canceling_host (5 * DAY) 0) 0 "sub1" = inr (Some s) /\
                    status s <> active) as H.
  { right. exists (netflix (5 * DAY) canceled). split; [reflexivity | discriminate]. }
  split; [exact H |].
  exact (absent_or_inactive_is_skipped (canceling_host (5 * DAY) 0) 0 "sub1" H).
Defined.

(** A subscription that is not in storage. *)
Example run_on_missing_subscription :
  run empty_host 0 "sub1" =
    (Returned (mkReturn false "Subscription not found" None None),
     mkRunState 0 [Fetched "get-subscription" "sub1" None]).
Proof. reflexivity. Qed.

(** A run whose renewal date has passed returns at once. *)
Lemma run_active (h : Host) (t0 : Z) (id : ObjectId)
    (sub : Subscription (option User)) :
  findById h t0 id = inr (Some sub) -> status sub = active ->
  DateMath.isBefore (renewalDate sub) t0 = true ->
  run h t0 id =
    (Returned (mkReturn false "Renewal date has passed" None None),
     mkRunState t0 [Fetched "get-subscription" id (Some sub)]).
Proof.
  intros H Hs Hb. run_steps. rewrite H. cbn. rewrite Hs. cbn.
  rewrite Hb. reflexivity.
Qed.

(** The zero-days case of the window: the reminder goes out. *)
Lemma run_zero_days (h : Host) (t0 : Z) (id : ObjectId)
    (sub : Subscription (option User)) :
  findById h t0 id = inr (Some sub) -> status sub = active ->
  t0 <= renewalDate sub ->
  DateMath.diff_day (renewalDate sub) t0 = 0 ->
  delivers h t0 sub 0 ->
  offsets_sent (trace (snd (run h t0 id))) = [0].
Proof.
  intros H Hs Hle Hd [u [Hu Hm]]. run_steps. rewrite H. cbn. rewrite Hs. cbn.
  assert (DateMath.isBefore (renewalDate sub) t0 = false) as Hb
    by (unfold DateMath.isBefore; apply Z.ltb_ge; lia).
  rewrite Hb, Hd, Hu. cbn. rewrite Hm. cbn. reflexivity.
Qed.

(** C4, as stated, fails: a renewal twelve hours ahead has
    [daysUntilRenewal = 0], is not past, and gets its reminder. *)
Lemma zero_days_is_not_treated_as_past :
  ~ (forall (h : Host) (t0 : Z) (id : ObjectId) (sub : Subscription (option User)),
        findById h t0 id = inr (Some sub) -> status sub = active ->
        DateMath.diff_day (renewalDate sub) t0 <= 0 ->
        mails (trace (snd (run h t0 id))) = []).
Proof.
  intros claim.
  specialize (claim (steady_host (12 * HOUR)) 0 "sub1" (netflix (12 * HOUR) active)
                eq_refl eq_refl).
  assert (DateMath.diff_day (renewalDate (netflix (12 * HOUR) active)) 0 <= 0) as Hd
    by (vm_compute; discriminate).
  specialize (claim Hd). vm_compute in claim. discriminate claim.
Qed.

(** C4 (amended): for every active subscription whose renewal date is
    strictly before the instant the run evaluates it, which covers every
    negative [daysUntilRenewal], no reminder is sent, the run does not
    sleep, and it returns at once with "Renewal date has passed".
    [daysUntilRenewal = 0] alone is not treated as past: when the renewal
    date has not passed yet, the reminder is sent immediately. *)
Theorem past_renewal_sends_nothing (h : Host) (t0 : Z) (id : ObjectId)
    (sub : Subscription (option User)) :
  findById h t0 id = inr (Some sub) -> status sub = active ->
  (renewalDate sub < t0 \/ DateMath.diff_day (renewalDate sub) t0 < 0 ->
     run h t0 id =
       (Returned (mkReturn false "Renewal date has passed" None None),
        mkRunState t0 [Fetched "get-subscription" id (Some sub)])) /\
  (t0 <= renewalDate sub -> DateMath.diff_day (renewalDate sub) t0 = 0 ->
     delivers h t0 sub 0 ->
     offsets_sent (trace (snd (run h t0 id))) = [0]).
Proof.
  intros H Hs. split.
  - intros Hpast. apply run_active; trivial.
    unfold DateMath.isBefore. apply Z.ltb_lt.
    destruct Hpast as [L | L]; [exact L |].
    now apply DateMathFacts.diff_day_negative.
  - now apply run_zero_days.
Qed.

Lemma past_renewal_sends_nothing_witness :
  findById (steady_host (- (12 * HOUR))) 0 "sub1"
    = inr (Some (netflix (- (12 * HOUR)) active)) /\
  status (netflix (- (12 * HOUR)) active) = active /\
  renewalDate (netflix (- (12 * HOUR)) active) < 0 /\
  mails (trace (snd (run (steady_host (- (12 * HOUR))) 0 "sub1"))) = [].
Proof.
  split; [reflexivity |]. split; [reflexivity |]. split; [reflexivity |].
  destruct (past_renewal_sends_nothing (steady_host (- (12 * HOUR))) 0 "sub1"
              (netflix (- (12 * HOUR)) active) eq_refl eq_refl) as [Hpast _].
  rewrite Hpast; [reflexivity | left; reflexivity].
Defined.

(** [find] on the offsets picks the largest one strictly below [d]. *)
Lemma find_next_reminder_day (d : Z) :
  1 < d <= 7 ->
  exists off,
    find (fun day => day <? d) REMINDER_DAYS = Some off /\
    largest_offset_below REMINDER_DAYS d = Some off /\
    0 < off < d.
Proof.
  intros Hd.
  assert (d = 2 \/ d = 3 \/ d = 4 \/ d = 5 \/ d = 6 \/ d = 7) as Hcases by lia.
  destruct Hcases as [E | [E | [E | [E | [E | E]]]]]; subst d;
    (exists 1; repeat split; reflexivity) || (exists 3; repeat split; reflexivity).
Qed.

Lemma no_offset_below_one (d : Z) :
  d <= 1 -> largest_offset_below REMINDER_DAYS d = None.
Proof.
  intros Hd. unfold largest_offset_below, REMINDER_DAYS, fold_right.
  destruct (Z.ltb_spec 1 d); [lia |].
  destruct (Z.ltb_spec 3 d); [lia |].
  destruct (Z.ltb_spec 7 d); [lia |]. reflexivity.
Qed.

Lemma not_before_of_positive (renewal t0 : Z) :
  0 < DateMath.diff_day renewal t0 -> DateMath.isBefore renewal t0 = false.
Proof.
  intros Hd. unfold DateMath.isBefore. apply Z.ltb_ge.
  pose proof (DateMathFacts.diff_day_positive renewal t0 Hd). lia.
Qed.

Lemma sleeps_before_window (h : Host) (t0 : Z) (id : ObjectId)
    (sub : Subscription (option User)) :
  findById h t0 id = inr (Some sub) -> status sub = active ->
  7 < DateMath.diff_day (renewalDate sub) t0 ->
  sleeps (trace (snd (run h t0 id)))
  = [seconds_of_days (DateMath.diff_day (renewalDate sub) t0 - 7)].
Proof.
  intros H Hs Hd.
  pose proof (not_before_of_positive (renewalDate sub) t0 ltac:(lia)) as Hb.
  assert ((DateMath.diff_day (renewalDate sub) t0 <=? nth 0 REMINDER_DAYS 0) = false)
    as Hw by (rewrite REMINDER_DAYS_0; apply Z.leb_gt; lia).
  run_eval. rewrite H. run_eval. rewrite Hs. run_eval. rewrite Hb, Hw.
  rewrite REMINDER_DAYS_0.
  match goal with
  | |- context [findById h ?t id] => destruct (findById h t id) as [e | [updated |]]
  end; run_eval; try reflexivity.
  destruct (status updated); run_eval; try reflexivity.
  destruct (user updated) as [u |]; run_eval; try reflexivity.
  match goal with
  | |- context [sendRenewalReminder h ?t ?m] => destruct (sendRenewalReminder h t m)
  end; reflexivity.
Qed.

Lemma sleeps_in_window (h : Host) (t0 : Z) (id : ObjectId)
    (sub : Subscription (option User)) (off : Z) :
  findById h t0 id = inr (Some sub) -> status sub = active ->
  1 < DateMath.diff_day (renewalDate sub) t0 <= 7 ->
  delivers h t0 sub (DateMath.diff_day (renewalDate sub) t0) ->
  find (fun day => day <? DateMath.diff_day (renewalDate sub) t0) REMINDER_DAYS
    = Some off ->
  0 < off ->
  sleeps (trace (snd (run h t0 id)))
  = [seconds_of_days (DateMath.diff_day (renewalDate sub) t0 - off)].
Proof.
  intros H Hs Hd [u [Hu Hm]] Hfind Hoff.
  pose proof (not_before_of_positive (renewalDate sub) t0 ltac:(lia)) as Hb.
  assert ((DateMath.diff_day (renewalDate sub) t0 <=? nth 0 REMINDER_DAYS 0) = true)
    as Hw by (rewrite REMINDER_DAYS_0; apply Z.leb_le; lia).
  assert ((DateMath.diff_day (renewalDate sub) t0 >? 1) = true) as Hg
    by (apply Z.gtb_lt; lia).
  assert ((off =? 0) = false) as Hz by (apply Z.eqb_neq; lia).
  run_eval. rewrite H. run_eval. rewrite Hs. run_eval. rewrite Hb, Hw, Hu.
  run_eval. rewrite Hm. run_eval. rewrite Hg, Hfind, Hz. run_eval.
  match goal with
  | |- context [sendRenewalReminder h ?t ?m] => destruct (sendRenewalReminder h t m)
  end; reflexivity.
Qed.

Lemma no_sleep_at_the_last_offset (h : Host) (t0 : Z) (id : ObjectId)
    (sub : Subscription (option User)) :
  findById h t0 id = inr (Some sub) -> status sub = active ->
  DateMath.diff_day (renewalDate sub) t0 <= 1 ->
  sleeps (trace (snd (run h t0 id))) = [].
Proof.
  intros H Hs Hd.
  assert ((DateMath.diff_day (renewalDate sub) t0 <=? nth 0 REMINDER_DAYS 0) = true)
    as Hw by (rewrite REMINDER_DAYS_0; apply Z.leb_le; lia).
  assert ((DateMath.diff_day (renewalDate sub) t0 >? 1) = false) as Hg
    by (rewrite Z.gtb_ltb; apply Z.ltb_ge; lia).
  run_eval. rewrite H. run_eval. rewrite Hs. run_eval.
  destruct (DateMath.isBefore (renewalDate sub) t0); [reflexivity |].
  rewrite Hw.
  destruct (user sub) as [u |]; run_eval; [| reflexivity].
  destruct (sendRenewalReminder h t0 _); run_eval; [reflexivity |].
  rewrite Hg. reflexivity.
Qed.

(** C8: the sleep a run computes is [daysUntilRenewal] minus the next due
    offset, in seconds. More than 7 days out it sleeps
    [daysUntilRenewal - 7] days before the first reminder; inside the
    window (after the immediate reminder went out) it sleeps
    [daysUntilRenewal] minus the largest offset strictly below it; at one
    day or less no offset lies below and it does not sleep. *)
Theorem sleep_is_days_minus_next_offset (h : Host) (t0 : Z) (id : ObjectId)
    (sub : Subscription (option User)) :
  findById h t0 id = inr (Some sub) -> status sub = active ->
  let d := DateMath.diff_day (renewalDate sub) t0 in
  let tr := trace (snd (run h t0 id)) in
  (7 < d -> sleeps tr = [seconds_of_days (d - 7)]) /\
  (1 < d <= 7 -> delivers h t0 sub d ->
     exists off,
       largest_offset_below REMINDER_DAYS d = Some off /\
       sleeps tr = [seconds_of_days (d - off)]) /\
  (d <= 1 -> largest_offset_below REMINDER_DAYS d = None /\ sleeps tr = []).
Proof.
  intros H Hs d tr. subst d tr. split; [| split].
  - intros Hd. now apply sleeps_before_window.
  - intros Hd Hdel.
    destruct (find_next_reminder_day _ Hd) as [off [Hfind [Hlargest Hoff]]].
    exists off. split; [exact Hlargest |].
    apply sleeps_in_window; trivial. lia.
  - intros Hd. split.
    + now apply no_offset_below_one.
    + now apply (no_sleep_at_the_last_offset h t0 id sub).
Qed.

Lemma sleep_is_days_minus_next_offset_witness :
  findById (steady_host (5 * DAY + 12 * HOUR)) 0 "sub1"
    = inr (Some (netflix (5 * DAY + 12 * HOUR) active)) /\
  status (netflix (5 * DAY + 12 * HOUR) active) = active /\
  DateMath.diff_day (5 * DAY + 12 * HOUR) 0 = 5 /\
  largest_offset_below REMINDER_DAYS 5 = Some 3 /\
  sleeps (trace (snd (run (steady_host (5 * DAY + 12 * HOUR)) 0 "sub1")))
    = [seconds_of_days 2].
Proof.
  split; [reflexivity |]. split; [reflexivity |]. split; [reflexivity |].
  split; [reflexivity |].
  destruct (sleep_is_days_minus_next_offset (steady_host (5 * DAY + 12 * HOUR)) 0 "sub1"
              (netflix (5 * DAY + 12 * HOUR) active) eq_refl eq_refl)
    as [_ [Hwindow _]].
  assert (1 < DateMath.diff_day (5 * DAY + 12 * HOUR) 0 <= 7) as Hd
    by (vm_compute; split; [reflexivity | discriminate]).
  assert (delivers (steady_host (5 * DAY + 12 * HOUR)) 0
            (netflix (5 * DAY + 12 * HOUR) active)
            (DateMath.diff_day (5 * DAY + 12 * HOUR) 0)) as Hdel
    by (exists alice; split; reflexivity).
  destruct (Hwindow Hd Hdel) as [off [Hoff Hsleeps]].
  vm_compute in Hoff. injection Hoff as <-. exact Hsleeps.
Defined.

(** Ten days out: a 3-day sleep. *)
Example ten_days_out_sleeps_three_days :
  sleeps (trace (snd (run (steady_host (10 * DAY)) 0 "sub1"))) = [seconds_of_days 3].
Proof. vm_compute. reflexivity. Qed.

(** X1: no run ever delivers more than two reminders. *)
Lemma at_most_two_reminders (h : Host) (t0 : Z) (id : ObjectId) :
  (List.length (mails (trace (snd (run h t0 id)))) <= 2)%nat.
Proof.
  run_eval.
  destruct (findById h t0 id) as [e | [sub |]]; run_eval; try (cbn; lia).
  destruct (status sub); run_eval; try (cbn; lia).
  destruct (DateMath.isBefore (renewalDate sub) t0); try (cbn; lia).
  destruct (DateMath.diff_day (renewalDate sub) t0 <=? nth 0 REMINDER_DAYS 0).
  - destruct (user sub) as [u |]; run_eval; try (cbn; lia).
    match goal with
    | |- context [sendRenewalReminder h ?t ?m] => destruct (sendRenewalReminder h t m)
    end; run_eval; try (cbn; lia).
    destruct (DateMath.diff_day (renewalDate sub) t0 >? 1); run_eval; try (cbn; lia).
    destruct (find _ REMINDER_DAYS) as [next |]; run_eval; try (cbn; lia).
    destruct (next =? 0); run_eval; try (cbn; lia).
    match goal with
    | |- context [sendRenewalReminder h ?t ?m] => destruct (sendRenewalReminder h t m)
    end; cbn; lia.
  - match goal with
    | |- context [findById h ?t id] => destruct (findById h t id) as [e | [updated |]]
    end; run_eval; try (cbn; lia).
    destruct (status updated); run_eval; try (cbn; lia).
    destruct (user updated) as [u |]; run_eval; try (cbn; lia).
    match goal with
    | |- context [sendRenewalReminder h ?t ?m] => destruct (sendRenewalReminder h t m)
    end; cbn; lia.
Qed.

(** C1 does not hold of the code (a defect of the code: its header and
    the README promise the 7-, 3- and 1-day reminders). Evaluated on a
    subscription that stays active, with every mail delivered: triggered
    10 days before renewal the run sleeps 3 days, sends the 7-day
    reminder and returns; triggered exactly 7 days before, it sends the
    7- and the 3-day reminders and returns. The 1-day reminder is sent
    in neither run. *)
Theorem run_returns_before_the_last_checkpoints :
  (exists v st,
      run (steady_host (10 * DAY)) 0 "sub1" = (Returned v, st) /\
      success v = true /\ offsets_sent (trace st) = [7]) /\
  (exists v st,
      run (steady_host (7 * DAY)) 0 "sub1" = (Returned v, st) /\
      success v = true /\ offsets_sent (trace st) = [7; 3]).
Proof.
  split; eexists _, _; (split; [vm_compute; reflexivity |]); split; reflexivity.
Qed.


(** C3 does not hold of the code (a defect of the code: the sleep before
    the window is followed by a re-read of the subscription, the sleep
    between two reminders is not). Evaluated on a subscription 5.5 days
    from renewal that is canceled one day into the run: the run sends the
    immediate reminder, sleeps 2 days, and then sends the next reminder
    from the subscription it read at the start, without reading the
    storage again, although the storage then says canceled. *)
Theorem no_refetch_after_the_sleep_between_reminders :
  let h := canceling_host (5 * DAY + 12 * HOUR) DAY in
  let sub := netflix (5 * DAY + 12 * HOUR) active in
  run h 0 "sub1" =
    (Returned (mkReturn true "Reminder sent for subscription sub1" (Some 5) None),
     mkRunState (2 * DAY)
       [Fetched "get-subscription" "sub1" (Some sub);
        Sent "send-reminder-email" (reminder_for alice sub 5);
        Slept "wait-for-next-reminder" (seconds_of_days 2);
        Sent "send-next-reminder-email" (reminder_for alice sub 3)]) /\
  findById h (2 * DAY) "sub1" = inr (Some (netflix (5 * DAY + 12 * HOUR) canceled)).
Proof. split; vm_compute; reflexivity. Qed.

(** The same when the subscription is deleted during the sleep. *)
Example deletion_during_the_sleep_is_not_observed :
  offsets_sent (trace (snd (run (deleting_host (5 * DAY + 12 * HOUR) DAY) 0 "sub1")))
    = [5; 3] /\
  findById (deleting_host (5 * DAY + 12 * HOUR) DAY) (2 * DAY) "sub1" = inr None.
Proof. split; vm_compute; reflexivity. Qed.

(** Canceled during the sleep that precedes the window: nothing is sent. *)
Example cancellation_before_the_window_is_observed :
  mails (trace (snd (run (canceling_host (10 * DAY) DAY) 0 "sub1"))) = [] /\
  sleeps (trace (snd (run (canceling_host (10 * DAY) DAY) 0 "sub1")))
    = [seconds_of_days 3].
Proof. split; vm_compute; reflexivity. Qed.

End WorkflowFacts.

(** ** Triggering workflows *)

Module DispatchFacts.
Import Dispatch Scenarios.

Lemma schedule_accepted (svc : Services) (id : ObjectId) (w : World) :
  upstashTrigger svc (workflowRuns w) (request_for svc id) = None ->
  scheduleReminderWorkflow svc id w =
    (inr (mkScheduled true "Reminder workflow scheduled"),
     mkWorld (subscriptions w) (dbFault w) (workflowRuns w ++ [request_for svc id])).
Proof.
  intros H. unfold scheduleReminderWorkflow. fold (request_for svc id).
  rewrite H. reflexivity.
Qed.

Lemma schedule_rejected (svc : Services) (id : ObjectId) (w : World) (err : Error) :
  upstashTrigger svc (workflowRuns w) (request_for svc id) = Some err ->
  scheduleReminderWorkflow svc id w = (inl err, w).
Proof.
  intros H. unfold scheduleReminderWorkflow. fold (request_for svc id).
  rewrite H. reflexivity.
Qed.

Lemma runs_for_snoc (id : ObjectId) (w : World) (svc : Services) :
  runs_for id
    (mkWorld (subscriptions w) (dbFault w) (workflowRuns w ++ [request_for svc id]))
  = (runs_for id w ++ [request_for svc id])%list.
Proof.
  unfold runs_for. cbn [workflowRuns]. rewrite filter_app. cbn.
  rewrite String.eqb_refl. reflexivity.
Qed.

(** C6, as stated, fails: with one run already started for "sub1", a
    further call starts a second one. *)
Lemma second_trigger_starts_a_second_run :
  ~ (forall (svc : Services) (id : ObjectId) (w : World),
        (List.length (runs_for id w) <= 1)%nat ->
        (List.length (runs_for id (snd (scheduleReminderWorkflow svc id w))) <= 1)%nat).
Proof.
  intros claim.
  specialize (claim accepting "sub1"
                (snd (scheduleReminderWorkflow accepting "sub1" one_due))).
  vm_compute in claim. lia.
Qed.

(** C6 (amended): [scheduleReminderWorkflow] makes no check for an
    existing run. Whenever the workflow host accepts the trigger the call
    succeeds and one more run for that subscription is started, whatever
    runs exist already; only when the trigger itself throws does the call
    fail, re-throwing that error, and start nothing. *)
Theorem schedule_starts_a_run_whenever_accepted
    (svc : Services) (id : ObjectId) (w : World) :
  match upstashTrigger svc (workflowRuns w) (request_for svc id) with
  | None =>
      fst (scheduleReminderWorkflow svc id w)
        = inr (mkScheduled true "Reminder workflow scheduled") /\
      runs_for id (snd (scheduleReminderWorkflow svc id w))
        = (runs_for id w ++ [request_for svc id])%list
  | Some err => scheduleReminderWorkflow svc id w = (inl err, w)
  end.
Proof.
  destruct (upstashTrigger svc (workflowRuns w) (request_for svc id)) as [err |] eqn:E.
  - now apply schedule_rejected.
  - rewrite (schedule_accepted svc id w E). cbn [fst snd]. split; [reflexivity |].
    apply runs_for_snoc.
Qed.

(** The loop of the sweep: one entry per subscription, in order, and one
    run per accepted trigger. *)
Lemma trigger_each_spec (svc : Services) (subs : list (Subscription ObjectId)) :
  forall (results : list ResultEntry) (w : World),
  exists new,
    fst (trigger_each svc subs results w) = (results ++ new)%list /\
    Forall2 (entry_ok svc) subs new /\
    workflowRuns (snd (trigger_each svc subs results w))
      = (workflowRuns w
         ++ map (fun e => request_for svc (subscriptionId e)) (filter is_scheduled new))%list /\
    subscriptions (snd (trigger_each svc subs results w)) = subscriptions w /\
    dbFault (snd (trigger_each svc subs results w)) = dbFault w.
Proof.
  induction subs as [| s rest IH]; intros results w.
  - exists []. cbn. rewrite !app_nil_r. repeat split; trivial.
  - cbn [trigger_each].
    destruct (upstashTrigger svc (workflowRuns w) (request_for svc (_id s)))
      as [err |] eqn:E.
    + rewrite (schedule_rejected svc (_id s) w err E).
      destruct (IH (results ++ [mkEntry (_id s) "failed" (Some (message err))])%list w)
        as [new [Hres [Hall [Hruns [Hsubs Hfault]]]]].
      exists (mkEntry (_id s) "failed" (Some (message err)) :: new).
      rewrite Hres, Hruns, Hsubs, Hfault, <- app_assoc. cbn.
      repeat split; trivial.
      constructor; [| exact Hall].
      split; [reflexivity |]. right. split; [reflexivity |].
      exists (workflowRuns w), err. split; [exact E | reflexivity].
    + rewrite (schedule_accepted svc (_id s) w E).
      destruct (IH (results ++ [mkEntry (_id s) "scheduled" None])%list
                  (mkWorld (subscriptions w) (dbFault w)
                     (workflowRuns w ++ [request_for svc (_id s)])))
        as [new [Hres [Hall [Hruns [Hsubs Hfault]]]]].
      cbn [workflowRuns subscriptions dbFault] in Hruns, Hsubs, Hfault.
      exists (mkEntry (_id s) "scheduled" None :: new).
      rewrite Hres, Hruns, Hsubs, Hfault. cbn.
      split; [now rewrite <- app_assoc |].
      split; [| split; [now rewrite <- app_assoc | split; reflexivity]].
      constructor; [| exact Hall].
      split; [reflexivity |]. left. split; [reflexivity |]. split; [reflexivity |].
      exists (workflowRuns w). exact E.
Qed.

Lemma window_end (today : Z) :
  DateMath.add_day today (nth 0 Workflow.REMINDER_DAYS 0)
  = today + 7 * DateMath.MILLISECONDS_A_DAY.
Proof. reflexivity. Qed.

(** C10: when the storage answers the query, the sweep responds 200 with
    one result entry per due subscription, in order: "scheduled" where
    the trigger was accepted, "failed" with the error's message where it
    threw. A failure does not stop the loop: the runs started are exactly
    those of the entries reported as scheduled. *)
Theorem sweep_reports_every_due_subscription
    (svc : Services) (today : Z) (w : World) :
  dbFault w = None ->
  let due := find_due today (today + 7 * DateMath.MILLISECONDS_A_DAY) (subscriptions w) in
  exists results w',
    processAllSubscriptionReminders svc today w =
      (Responded 200
         (JProcessed ("Processed " ++ show_length due ++ " subscriptions") results),
       w') /\
    Forall2 (entry_ok svc) due results /\
    List.length results = List.length due /\
    workflowRuns w'
      = (workflowRuns w
         ++ map (fun e => request_for svc (subscriptionId e))
              (filter is_scheduled results))%list.
Proof.
  intros Hdb due. unfold processAllSubscriptionReminders.
  rewrite Hdb, window_end. fold due.
  destruct (trigger_each_spec svc due [] w) as [new [Hres [Hall [Hruns _]]]].
  destruct (trigger_each svc due [] w) as [results w'] eqn:E.
  cbn [fst snd] in Hres, Hruns. cbn [app] in Hres. subst results.
  exists new, w'. split; [reflexivity |]. split; [exact Hall |].
  split; [| exact Hruns].
  symmetry. exact (Forall2_length Hall).
Qed.

Lemma sweep_reports_every_due_subscription_witness :
  dbFault three_due = None /\
  exists results w',
    processAllSubscriptionReminders rejecting_sub2 0 three_due =
      (Responded 200
         (JProcessed
            ("Processed "
             ++ show_length (find_due 0 (0 + 7 * DateMath.MILLISECONDS_A_DAY)
                               (subscriptions three_due))
             ++ " subscriptions") results),
       w') /\
    Forall2 (entry_ok rejecting_sub2)
      (find_due 0 (0 + 7 * DateMath.MILLISECONDS_A_DAY) (subscriptions three_due))
      results /\
    List.length results
      = List.length (find_due 0 (0 + 7 * DateMath.MILLISECONDS_A_DAY)
                       (subscriptions three_due)) /\
    workflowRuns w'
      = (workflowRuns three_due
         ++ map (fun e => request_for rejecting_sub2 (subscriptionId e))
              (filter is_scheduled results))%list.
Proof.
  split; [reflexivity |].
  exact (sweep_reports_every_due_subscription rejecting_sub2 0 three_due eq_refl).
Defined.

(** One failing trigger among three due subscriptions. *)
Example sweep_with_one_failure :
  fst (processAllSubscriptionReminders rejecting_sub2 0 three_due) =
    Responded 200
      (JProcessed "Processed 3 subscriptions"
         [mkEntry "sub1" "scheduled" None;
          mkEntry "sub2" "failed" (Some "fetch failed");
          mkEntry "sub3" "scheduled" None]).
Proof. vm_compute. reflexivity. Qed.

(** With a workflow host that accepts every trigger, the loop starts one
    run per subscription. *)
Lemma trigger_each_accepting (svc : Services) (subs : list (Subscription ObjectId)) :
  (forall runs r, upstashTrigger svc runs r = None) ->
  forall (results : list ResultEntry) (w : World),
    snd (trigger_each svc subs results w)
    = mkWorld (subscriptions w) (dbFault w)
        (workflowRuns w ++ map (fun s => request_for svc (_id s)) subs).
Proof.
  intros Hacc. induction subs as [| s rest IH]; intros results w.
  - cbn. rewrite app_nil_r. destruct w; reflexivity.
  - cbn [trigger_each]. rewrite (schedule_accepted svc (_id s) w (Hacc _ _)).
    rewrite IH. cbn. rewrite <- app_assoc. reflexivity.
Qed.

Lemma sweep_accepting (svc : Services) (today : Z) (w : World) :
  dbFault w = None ->
  (forall runs r, upstashTrigger svc runs r = None) ->
  snd (processAllSubscriptionReminders svc today w)
  = mkWorld (subscriptions w) (dbFault w)
      (workflowRuns w
       ++ map (fun s => request_for svc (_id s))
            (find_due today (today + 7 * DateMath.MILLISECONDS_A_DAY) (subscriptions w))).
Proof.
  intros Hdb Hacc. unfold processAllSubscriptionReminders.
  rewrite Hdb, window_end.
  pose proof (trigger_each_accepting svc
                (find_due today (today + 7 * DateMath.MILLISECONDS_A_DAY) (subscriptions w))
                Hacc [] w) as Hw.
  destruct (trigger_each svc _ [] w) as [results w']. cbn [snd] in *.
  rewrite Hw, Hdb. reflexivity.
Qed.

(** C5, as stated, fails: with one due subscription, the second sweep
    starts a run again. *)
Lemma second_sweep_starts_runs_again :
  ~ (forall (svc : Services) (today : Z) (w : World),
        let w1 := snd (processAllSubscriptionReminders svc today w) in
        let w2 := snd (processAllSubscriptionReminders svc today w1) in
        workflowRuns w2 = workflowRuns w1).
Proof.
  intros claim. specialize (claim accepting 0 one_due).
  vm_compute in claim. discriminate claim.
Qed.

(** C5 (amended): the sweep triggers a workflow for every due
    subscription (active, renewing within the next 7 days) without
    looking at the runs that exist. With a workflow host that accepts the
    triggers, each invocation starts one run per due subscription, so a
    second invocation right after the first, with no change to the
    subscriptions, starts as many new runs as the first did. *)
Theorem second_sweep_triggers_every_due_subscription_again
    (svc : Services) (today : Z) (w : World) :
  dbFault w = None ->
  (forall runs r, upstashTrigger svc runs r = None) ->
  let due := find_due today (today + 7 * DateMath.MILLISECONDS_A_DAY) (subscriptions w) in
  let started := map (fun s => request_for svc (_id s)) due in
  let w1 := snd (processAllSubscriptionReminders svc today w) in
  let w2 := snd (processAllSubscriptionReminders svc today w1) in
  workflowRuns w1 = (workflowRuns w ++ started)%list /\
  workflowRuns w2 = (workflowRuns w1 ++ started)%list.
Proof.
  intros Hdb Hacc due started w1 w2.
  assert (w1 = mkWorld (subscriptions w) (dbFault w) (workflowRuns w ++ started)) as E1
    by (apply sweep_accepting; assumption).
  split; [rewrite E1; reflexivity |].
  subst w2. rewrite (sweep_accepting svc today w1); [| rewrite E1; exact Hdb | exact Hacc].
  rewrite E1. reflexivity.
Qed.

Lemma second_sweep_triggers_every_due_subscription_again_witness :
  dbFault three_due = None /\
  (forall runs r, upstashTrigger accepting runs r = None) /\
  List.length
    (workflowRuns
       (snd (processAllSubscriptionReminders accepting 0
               (snd (processAllSubscriptionReminders accepting 0 three_due)))))
  = 6%nat.
Proof.
  split; [reflexivity |]. split; [reflexivity |].
  destruct (second_sweep_triggers_every_due_subscription_again accepting 0 three_due
              eq_refl (fun _ _ => eq_refl)) as [H1 H2].
  rewrite H2, H1. reflexivity.
Defined.

End DispatchFacts.

(** ** Creating a subscription *)

Module SubscriptionsFacts.
Import Dispatch Subscriptions Scenarios.

Lemma Subscription_create_persists (svc : Services) (doc sub : Subscription ObjectId)
    (w w1 : World) :
  Subscription_create svc doc w = (inr sub, w1) ->
  subscriptions w1 = (subscriptions w ++ [sub])%list /\
  workflowRuns w1 = workflowRuns w.
Proof.
  unfold Subscription_create. intros H.
  destruct (dbFault w); [discriminate H |].
  destruct (mongoCreate svc (subscriptions w) doc) as [e | created]; [discriminate H |].
  injection H as <- <-. split; reflexivity.
Qed.

Lemma schedule_keeps_subscriptions (svc : Services) (id : ObjectId) (w : World) :
  subscriptions (snd (scheduleReminderWorkflow svc id w)) = subscriptions w.
Proof.
  unfold scheduleReminderWorkflow.
  destruct (upstashTrigger svc (workflowRuns w) _); reflexivity.
Qed.

(** C9: for a request of an authenticated user, once the document has
    been persisted the controller responds 201 with the created
    subscription whatever the scheduling of the reminder workflow does.
    When the trigger throws, the error is swallowed: the response is the
    same, the stored document stays, and no run is started. *)
Theorem creation_survives_workflow_failure
    (svc : Services) (req : Request) (w w1 : World)
    (u : AuthUser) (uid : ObjectId) (sub : Subscription ObjectId) :
  req_user req = Some u -> auth_id u = Some uid ->
  Subscription_create svc (with_user (req_body req) uid) w = (inr sub, w1) ->
  fst (createSubscription svc req w) = Responded 201 (JCreated sub) /\
  subscriptions (snd (createSubscription svc req w)) = (subscriptions w ++ [sub])%list /\
  (forall err,
      upstashTrigger svc (workflowRuns w1) (request_for svc (_id sub)) = Some err ->
      snd (createSubscription svc req w) = w1).
Proof.
  intros Hu Hid Hcreate.
  destruct (Subscription_create_persists svc _ sub w w1 Hcreate) as [Hsubs Hruns].
  unfold createSubscription. rewrite Hu, Hid, Hcreate.
  pose proof (schedule_keeps_subscriptions svc (_id sub) w1) as Hkeep.
  split; [reflexivity |]. cbn [snd]. split.
  - destruct (scheduleReminderWorkflow svc (_id sub) w1) as [[e | ok] w2];
      cbn [snd] in Hkeep; rewrite Hkeep; exact Hsubs.
  - intros err Herr.
    rewrite (DispatchFacts.schedule_rejected svc (_id sub) w1 err Herr). reflexivity.
Qed.

Lemma creation_survives_workflow_failure_witness :
  req_user create_request = Some (mkAuthUser (Some "user1")) /\
  auth_id (mkAuthUser (Some "user1")) = Some "user1" /\
  Subscription_create rejecting (with_user (req_body create_request) "user1") one_due
    = (inr (stored "sub9" (30 * DAY) active),
       mkWorld (subscriptions one_due ++ [stored "sub9" (30 * DAY) active]) None []) /\
  fst (createSubscription rejecting create_request one_due)
    = Responded 201 (JCreated (stored "sub9" (30 * DAY) active)) /\
  workflowRuns (snd (createSubscription rejecting create_request one_due)) = [].
Proof.
  split; [reflexivity |]. split; [reflexivity |]. split; [reflexivity |].
  destruct (creation_survives_workflow_failure rejecting create_request one_due
              (mkWorld (subscriptions one_due ++ [stored "sub9" (30 * DAY) active]) None [])
              (mkAuthUser (Some "user1")) "user1" (stored "sub9" (30 * DAY) active)
              eq_refl eq_refl eq_refl) as [Hresp [_ Hswallow]].
  split; [exact Hresp |].
  rewrite (Hswallow (mkError "fetch failed" None) eq_refl). reflexivity.
Defined.

(** Without an authenticated user nothing is created. *)
Example unauthenticated_creation :
  createSubscription accepting (mkRequest (stored "sub9" (30 * DAY) active) None) one_due
  = (Responded 401 (JError "User not authenticated"), one_due).
Proof. reflexivity. Qed.

End SubscriptionsFacts.


(** ** More on the reminder workflow *)

Module WorkflowMoreFacts.
Import Workflow Dispatch Handlers Scenarios MoreScenarios WorkflowFacts.

Ltac destruct_send h :=
  match goal with
  | |- context [sendRenewalReminder h ?t ?m] =>
      let E := fresh "Esend" in destruct (sendRenewalReminder h t m) eqn:E
  end.

Ltac destruct_fetch h id :=
  match goal with
  | |- context [findById h ?t id] =>
      let E := fresh "Efetch" in
      destruct (findById h t id) as [? | [?updated |]] eqn:E
  end.

(** What [find] returns on the offsets lies strictly below the day count
    and is one of the offsets. *)
Lemma find_offset_below (d o : Z) :
  find (fun day => day <? d) REMINDER_DAYS = Some o ->
  0 < o < d /\ In o REMINDER_DAYS.
Proof.
  intros H. apply find_some in H. destruct H as [Hin Hlt].
  apply Z.ltb_lt in Hlt. split; [| exact Hin].
  unfold REMINDER_DAYS in Hin. cbn in Hin.
  destruct Hin as [E | [E | [E | []]]]; lia.
Qed.

Lemma not_before_nonneg (renewal t0 : Z) :
  DateMath.isBefore renewal t0 = false -> 0 <= DateMath.diff_day renewal t0.
Proof.
  unfold DateMath.isBefore. intros H. apply Z.ltb_ge in H.
  now apply DateMathFacts.diff_day_nonneg.
Qed.

(** X2: a run sleeps at most once. *)
Theorem at_most_one_sleep (h : Host) (t0 : Z) (id : ObjectId) :
  (List.length (sleeps (trace (snd (run h t0 id)))) <= 1)%nat.
Proof.
  run_eval.
  destruct (findById h t0 id) as [e | [sub |]]; run_eval; try (cbn; lia).
  destruct (status sub); run_eval; try (cbn; lia).
  destruct (DateMath.isBefore (renewalDate sub) t0); try (cbn; lia).
  destruct (DateMath.diff_day (renewalDate sub) t0 <=? nth 0 REMINDER_DAYS 0).
  - destruct (user sub) as [u |]; run_eval; try (cbn; lia).
    destruct_send h; run_eval; try (cbn; lia).
    destruct (DateMath.diff_day (renewalDate sub) t0 >? 1); run_eval; try (cbn; lia).
    destruct (find _ REMINDER_DAYS) as [next |]; run_eval; try (cbn; lia).
    destruct (next =? 0); run_eval; try (cbn; lia).
    destruct_send h; cbn; lia.
  - destruct_fetch h id; run_eval; try (cbn; lia).
    destruct (status updated); run_eval; try (cbn; lia).
    destruct (user updated) as [u |]; run_eval; try (cbn; lia).
    destruct_send h; cbn; lia.
Qed.

(** X3: the day counts a run announces: none, one between 0 and 7, or two,
    the second being an offset strictly below the first. *)
Theorem announced_days_are_bounded_and_decrease (h : Host) (t0 : Z) (id : ObjectId) :
  let offs := offsets_sent (trace (snd (run h t0 id))) in
  offs = [] \/
  (exists d, offs = [d] /\ 0 <= d <= 7) \/
  (exists d o, offs = [d; o] /\ 0 < o < d /\ d <= 7 /\ In o REMINDER_DAYS).
Proof.
  run_eval.
  destruct (findById h t0 id) as [e | [sub |]]; run_eval; try (left; reflexivity).
  destruct (status sub); run_eval; try (left; reflexivity).
  destruct (DateMath.isBefore (renewalDate sub) t0) eqn:Hb; try (left; reflexivity).
  pose proof (not_before_nonneg _ _ Hb) as Hd0.
  rewrite REMINDER_DAYS_0.
  destruct (DateMath.diff_day (renewalDate sub) t0 <=? 7) eqn:Hw.
  - apply Z.leb_le in Hw.
    destruct (user sub) as [u |]; run_eval; try (left; reflexivity).
    destruct_send h; run_eval; try (left; reflexivity).
    destruct (DateMath.diff_day (renewalDate sub) t0 >? 1);
      run_eval; try (right; left; eexists; split; [reflexivity | cbn; lia]).
    destruct (find _ REMINDER_DAYS) as [next |] eqn:Hfind;
      run_eval; try (right; left; eexists; split; [reflexivity | cbn; lia]).
    apply find_offset_below in Hfind. destruct Hfind as [Hnext Hin].
    destruct (next =? 0); run_eval; try (right; left; eexists; split; [reflexivity | cbn; lia]).
    destruct_send h; cbn.
    + right; left; eexists; split; [reflexivity | cbn; lia].
    + right; right. eexists _, _. split; [reflexivity |]. cbn. auto.
  - destruct_fetch h id; run_eval; try (left; reflexivity).
    destruct (status updated); run_eval; try (left; reflexivity).
    destruct (user updated) as [u |]; run_eval; try (left; reflexivity).
    destruct_send h; cbn; [left; reflexivity |].
    right; left; eexists; split; [reflexivity | cbn; lia].
Qed.






End WorkflowMoreFacts.

(** ** More on the sweep and on the manual handlers *)

Module HandlersFacts.
Import Workflow Dispatch Handlers Scenarios MoreScenarios WorkflowFacts DispatchFacts.

Lemma find_due_spec (from upto : Z) (docs : list (Subscription ObjectId))
    (s : Subscription ObjectId) :
  In s (find_due from upto docs) <->
  In s docs /\ status s = active /\ from <= renewalDate s <= upto.
Proof.
  unfold find_due. rewrite filter_In, !andb_true_iff, Status_eqb_active, !Z.leb_le.
  tauto.
Qed.

(** The runs behind the entries reported as scheduled are runs for the
    subscriptions the entries are about. *)
Lemma scheduled_entries_are_for_their_subscriptions (svc : Services)
    (due : list (Subscription ObjectId)) (results : list ResultEntry) :
  Forall2 (entry_ok svc) due results ->
  Forall (fun r => exists s, In s due /\ r = request_for svc (_id s))
    (map (fun e => request_for svc (subscriptionId e)) (filter is_scheduled results)).
Proof.
  induction 1 as [| s e due results [Hid _] _ IH]; cbn; [constructor |].
  assert (Forall (fun r => exists s0, In s0 (s :: due) /\ r = request_for svc (_id s0))
            (map (fun e => request_for svc (subscriptionId e))
               (filter is_scheduled results))) as IH'.
  { eapply Forall_impl; [| exact IH]. cbn. intros r [s0 [Hin Hr]]. eauto. }
  destruct (is_scheduled e); cbn; [| exact IH'].
  constructor; [| exact IH'].
  exists s. split; [now left | now rewrite Hid].
Qed.

(** X7: whatever the workflow host and the storage do, the sweep leaves the
    stored subscriptions alone and only adds runs, each of them for a
    stored subscription that is active and renews within the next 7 days,
    at most one per such subscription. *)
Theorem sweep_only_starts_runs_for_due_subscriptions
    (svc : Services) (today : Z) (w : World) :
  let w' := snd (processAllSubscriptionReminders svc today w) in
  subscriptions w' = subscriptions w /\
  exists started,
    workflowRuns w' = (workflowRuns w ++ started)%list /\
    (List.length started
     <= List.length (find_due today (today + 7 * DateMath.MILLISECONDS_A_DAY)
                       (subscriptions w)))%nat /\
    Forall (fun r =>
              exists s, In s (subscriptions w) /\ status s = active /\
                        today <= renewalDate s <= today + 7 * DateMath.MILLISECONDS_A_DAY /\
                        r = request_for svc (_id s)) started.
Proof.
  unfold processAllSubscriptionReminders. rewrite window_end.
  destruct (dbFault w) as [e |] eqn:Hdb.
  - cbn. split; [reflexivity |]. exists []. rewrite app_nil_r.
    split; [reflexivity |]. split; [cbn; lia | constructor].
  - set (due := find_due today (today + 7 * DateMath.MILLISECONDS_A_DAY) (subscriptions w)).
    destruct (trigger_each_spec svc due [] w) as [new [_ [Hall [Hruns [Hsubs _]]]]].
    destruct (trigger_each svc due [] w) as [results w1]. cbn [snd] in *.
    split; [exact Hsubs |].
    exists (map (fun e => request_for svc (subscriptionId e)) (filter is_scheduled new)).
    split; [exact Hruns |]. split.
    + rewrite length_map, (Forall2_length Hall). apply filter_length_le.
    + eapply Forall_impl; [| exact (scheduled_entries_are_for_their_subscriptions _ _ _ Hall)].
      cbn. intros r [s [Hin Hr]]. apply find_due_spec in Hin.
      exists s. tauto.
Qed.

Lemma due_day_count (today renewal : Z) :
  today <= renewal <= today + 7 * DateMath.MILLISECONDS_A_DAY ->
  DateMath.isBefore renewal today = false /\ 0 <= DateMath.diff_day renewal today <= 7.
Proof.
  intros H. split; [unfold DateMath.isBefore; apply Z.ltb_ge; lia |].
  pose proof (DateMathFacts.diff_day_floor renewal today ltac:(lia)) as F.
  unfold DateMath.is_floor_days, DateMath.MILLISECONDS_A_DAY in *. lia.
Qed.

(** X8: the sweep and the workflow fit together: the run of a subscription
    the sweep selects, executed at the instant of the sweep, never sleeps
    before its first reminder. With the owner on file and the transport
    accepting, the first thing it does after reading the subscription is
    to send a reminder announcing between 0 and 7 days. *)
Theorem swept_subscription_is_reminded_at_once
    (users : ObjectId -> option User) (mailer : Z -> ReminderMail -> option Error)
    (today : Z) (w : World) (doc : Subscription ObjectId) (u : User) :
  dbFault w = None ->
  In doc (find_due today (today + 7 * DateMath.MILLISECONDS_A_DAY) (subscriptions w)) ->
  findDoc (_id doc) (subscriptions w) = Some doc ->
  users (user doc) = Some u ->
  let d := DateMath.diff_day (renewalDate doc) today in
  mailer today (reminder_for u (populate users doc) d) = None ->
  0 <= d <= 7 /\
  exists rest,
    trace (snd (run (storage_host users mailer w) today (_id doc)))
    = Fetched "get-subscription" (_id doc) (Some (populate users doc))
        :: Sent "send-reminder-email" (reminder_for u (populate users doc) d)
        :: rest.
Proof.
  intros Hdb Hin Hfind Hu d Hm. subst d.
  apply find_due_spec in Hin. destruct Hin as [_ [Hs Hwin]].
  destruct (due_day_count _ _ Hwin) as [Hb Hd]. split; [exact Hd |].
  assert ((DateMath.diff_day (renewalDate doc) today <=? nth 0 REMINDER_DAYS 0) = true)
    as Hw by (rewrite REMINDER_DAYS_0; apply Z.leb_le; lia).
  run_eval. unfold storage_host, findById_populated. cbn [findById sendRenewalReminder].
  rewrite Hdb, Hfind. cbn [option_map]. run_eval.
  change (status (populate users doc)) with (status doc).
  change (renewalDate (populate users doc)) with (renewalDate doc).
  change (user (populate users doc)) with (users (user doc)).
  rewrite Hs. run_eval. rewrite Hb, Hw, Hu. run_eval. rewrite Hm. run_eval.
  destruct (DateMath.diff_day (renewalDate doc) today >? 1); run_eval;
    [| eexists; reflexivity].
  destruct (find _ REMINDER_DAYS) as [next |]; run_eval; [| eexists; reflexivity].
  destruct (next =? 0); run_eval; [eexists; reflexivity |].
  match goal with
  | |- context [mailer ?t ?m] => destruct (mailer t m)
  end; eexists; reflexivity.
Qed.

Lemma swept_subscription_is_reminded_at_once_witness :
  dbFault one_due = None /\
  In (stored "sub1" (3 * DAY) active)
    (find_due 0 (0 + 7 * DateMath.MILLISECONDS_A_DAY) (subscriptions one_due)) /\
  DateMath.diff_day (3 * DAY) 0 = 3 /\
  exists rest,
    trace (snd (run (storage_host accounts delivering one_due) 0 "sub1"))
    = Fetched "get-subscription" "sub1"
        (Some (populate accounts (stored "sub1" (3 * DAY) active)))
        :: Sent "send-reminder-email"
             (reminder_for alice (populate accounts (stored "sub1" (3 * DAY) active)) 3)
        :: rest.
Proof.
  assert (In (stored "sub1" (3 * DAY) active)
            (find_due 0 (0 + 7 * DateMath.MILLISECONDS_A_DAY) (subscriptions one_due)))
    as Hin by (left; reflexivity).
  split; [reflexivity |]. split; [exact Hin |]. split; [reflexivity |].
  exact (proj2 (swept_subscription_is_reminded_at_once accounts delivering 0 one_due
                  (stored "sub1" (3 * DAY) active) alice
                  eq_refl Hin eq_refl eq_refl eq_refl)).
Defined.

(** X9: a manual trigger starts at most one run, and only for a subscription
    that is in storage; it never touches the stored subscriptions. A 200
    response means the run was started. *)
Theorem manual_trigger_starts_at_most_one_run
    (users : ObjectId -> option User) (svc : Services) (id : string) (w : World) :
  let r := fst (triggerReminderManually users svc id w) in
  let w' := snd (triggerReminderManually users svc id w) in
  subscriptions w' = subscriptions w /\
  (workflowRuns w' = workflowRuns w \/
   (workflowRuns w' = (workflowRuns w ++ [request_for svc id])%list /\
    exists doc, findDoc id (subscriptions w) = Some doc)) /\
  (forall body, r = Replied 200 body ->
     workflowRuns w' = (workflowRuns w ++ [request_for svc id])%list).
Proof.
  unfold triggerReminderManually, findById_populated.
  destruct (String.eqb id ""); cbn [fst snd].
  { split; [reflexivity |]. split; [now left | discriminate]. }
  destruct (dbFault w); cbn [fst snd].
  { split; [reflexivity |]. split; [now left | discriminate]. }
  destruct (findDoc id (subscriptions w)) as [doc |] eqn:Hdoc; cbn [option_map fst snd].
  2: { split; [reflexivity |]. split; [now left | discriminate]. }
  destruct (upstashTrigger svc (workflowRuns w) (request_for svc id)) as [err |] eqn:E.
  - rewrite (schedule_rejected svc id w err E). cbn [fst snd].
    split; [reflexivity |]. split; [now left | discriminate].
  - rewrite (schedule_accepted svc id w E).
    destruct (user (populate users doc)); cbn [fst snd subscriptions workflowRuns];
      (split; [reflexivity |]); (split; [right; eauto |]); intros; reflexivity.
Qed.

(** X10: the response of a manual trigger is built after the workflow has been
    triggered: when the owner of the subscription is no longer on file, the
    run is started all the same and the request ends in an error. *)
Theorem manual_trigger_without_owner_errs_after_triggering
    (users : ObjectId -> option User) (svc : Services) (id : string) (w : World)
    (doc : Subscription ObjectId) :
  id <> "" -> dbFault w = None ->
  findDoc id (subscriptions w) = Some doc ->
  users (user doc) = None ->
  upstashTrigger svc (workflowRuns w) (request_for svc id) = None ->
  triggerReminderManually users svc id w =
    (Forwarded TypeError_email_of_null,
     mkWorld (subscriptions w) (dbFault w) (workflowRuns w ++ [request_for svc id])).
Proof.
  intros Hid Hdb Hdoc Hu E.
  unfold triggerReminderManually, findById_populated.
  apply String.eqb_neq in Hid. rewrite Hid, Hdb, Hdoc. cbn [option_map].
  rewrite (schedule_accepted svc id w E).
  change (user (populate users doc)) with (users (user doc)). rewrite Hu, Hdb.
  reflexivity.
Qed.

Lemma manual_trigger_without_owner_errs_after_triggering_witness :
  let w := mkWorld [mkSubscription "sub8" "Hulu" 799 "USD" active (3 * DAY) "user2"] None [] in
  "sub8" <> "" /\
  accounts "user2" = None /\
  triggerReminderManually accounts accepting "sub8" w =
    (Forwarded TypeError_email_of_null,
     mkWorld (subscriptions w) None [request_for accepting "sub8"]).
Proof.
  split; [discriminate |]. split; [reflexivity |].
  apply (manual_trigger_without_owner_errs_after_triggering accounts accepting "sub8"
           (mkWorld [mkSubscription "sub8" "Hulu" 799 "USD" active (3 * DAY) "user2"] None [])
           (mkSubscription "sub8" "Hulu" 799 "USD" active (3 * DAY) "user2"));
    [discriminate | reflexivity | reflexivity | reflexivity | reflexivity].
Defined.


(** X12: a test reminder does not look at the status or at the date: a canceled
    subscription whose renewal lies in the past gets the mail too, and the
    mail announces one day. *)
Theorem test_reminder_ignores_status_and_date
    (users : ObjectId -> option User) (mailer : Z -> ReminderMail -> option Error)
    (today : Z) (id : string) (w : World) (doc : Subscription ObjectId) (u : User) :
  dbFault w = None ->
  findDoc id (subscriptions w) = Some doc ->
  users (user doc) = Some u ->
  renewalDate doc <= today ->
  mailer today (reminder_for u (populate users doc) 1) = None ->
  snd (sendTestReminder users mailer today id w) = [reminder_for u (populate users doc) 1].
Proof.
  intros Hdb Hdoc Hu Hpast Hm.
  unfold sendTestReminder, findById_populated. rewrite Hdb, Hdoc. cbn [option_map].
  change (user (populate users doc)) with (users (user doc)).
  change (renewalDate (populate users doc)) with (renewalDate doc).
  rewrite Hu.
  assert (DateMath.diff_day (renewalDate doc) today <= 0) as Hd.
  { destruct (Z_le_gt_dec (DateMath.diff_day (renewalDate doc) today) 0) as [L | G];
      [exact L |].
    pose proof (DateMathFacts.diff_day_positive (renewalDate doc) today ltac:(lia)). lia. }
  rewrite (Z.max_r (DateMath.diff_day (renewalDate doc) today) 1) by lia.
  rewrite Hm. reflexivity.
Qed.

Lemma test_reminder_ignores_status_and_date_witness :
  let w := mkWorld [stored "sub5" (- (2 * DAY)) canceled] None [] in
  findDoc "sub5" (subscriptions w) = Some (stored "sub5" (- (2 * DAY)) canceled) /\
  renewalDate (stored "sub5" (- (2 * DAY)) canceled) <= 0 /\
  snd (sendTestReminder accounts delivering 0 "sub5" w)
    = [reminder_for alice (populate accounts (stored "sub5" (- (2 * DAY)) canceled)) 1].
Proof.
  split; [reflexivity |]. split; [vm_compute; discriminate |].
  apply (test_reminder_ignores_status_and_date accounts delivering 0 "sub5"
           (mkWorld [stored "sub5" (- (2 * DAY)) canceled] None [])
           (stored "sub5" (- (2 * DAY)) canceled) alice);
    [reflexivity | reflexivity | reflexivity | vm_compute; discriminate | reflexivity].
Defined.

End HandlersFacts.

(** ** Listing, deleting and creating subscriptions *)

Module SubscriptionHandlersFacts.
Import Workflow Dispatch Subscriptions Handlers SubscriptionHandlers.
Import Scenarios MoreScenarios.

Lemma findDoc_absent (id : ObjectId) (docs : list (Subscription ObjectId)) :
  ~ In id (map _id docs) -> findDoc id docs = None.
Proof.
  unfold findDoc. induction docs as [| s rest IH]; cbn; [reflexivity |].
  intros Hnot. destruct (String.eqb_spec (_id s) id) as [E | N]; [tauto |].
  apply IH. tauto.
Qed.

Lemma findDoc_id (id : ObjectId) (docs : list (Subscription ObjectId))
    (doc : Subscription ObjectId) :
  findDoc id docs = Some doc -> _id doc = id /\ In doc docs.
Proof.
  unfold findDoc. intros H. apply find_some in H. destruct H as [Hin E].
  apply String.eqb_eq in E. tauto.
Qed.

Lemma findDoc_deleteDoc_same (id : ObjectId) (docs : list (Subscription ObjectId)) :
  NoDup (map _id docs) -> findDoc id (deleteDoc id docs) = None.
Proof.
  induction docs as [| s rest IH]; cbn; [reflexivity |].
  intros Hnd. inversion Hnd as [| x l Hnot Hrest]; subst.
  destruct (String.eqb_spec (_id s) id) as [E | N].
  - subst id. now apply findDoc_absent.
  - unfold findDoc. cbn. apply String.eqb_neq in N. rewrite N. now apply IH.
Qed.

Lemma findDoc_deleteDoc_other (id id' : ObjectId) (docs : list (Subscription ObjectId)) :
  id' <> id -> findDoc id' (deleteDoc id docs) = findDoc id' docs.
Proof.
  intros Hne. unfold findDoc.
  induction docs as [| s rest IH]; cbn; [reflexivity |].
  destruct (String.eqb_spec (_id s) id) as [E | N].
  - subst id. destruct (String.eqb_spec (_id s) id'); [congruence | reflexivity].
  - cbn. destruct (String.eqb (_id s) id'); [reflexivity | exact IH].
Qed.

Lemma deleteDoc_length (id : ObjectId) (docs : list (Subscription ObjectId))
    (doc : Subscription ObjectId) :
  findDoc id docs = Some doc -> S (List.length (deleteDoc id docs)) = List.length docs.
Proof.
  unfold findDoc. induction docs as [| s rest IH]; cbn; [discriminate |].
  destruct (String.eqb (_id s) id); [reflexivity |].
  intros H. cbn. now rewrite IH.
Qed.

(** X13: a listing that answers 200 returns exactly the stored subscriptions
    of the caller, and it is answered only to the user named in the URL. *)
Theorem listing_returns_exactly_the_callers_subscriptions
    (requester : option AuthUser) (userId : string) (w : World)
    (data : list (Subscription ObjectId)) :
  getUserSubscriptions requester userId w = Replied 200 (BData data) ->
  requester = Some (mkAuthUser (Some userId)) /\
  forall s, In s data <-> In s (subscriptions w) /\ user s = userId.
Proof.
  unfold getUserSubscriptions, caught.
  destruct requester as [[[uid |]] |]; cbn [auth_id]; try discriminate.
  destruct (String.eqb_spec uid userId) as [E | N]; cbn [negb]; [| discriminate].
  destruct (dbFault w); [discriminate |].
  intros H. injection H as <-. subst uid. split; [reflexivity |].
  intros s. rewrite filter_In, String.eqb_eq. tauto.
Qed.

Lemma listing_returns_exactly_the_callers_subscriptions_witness :
  getUserSubscriptions as_user1 "user1" three_due
    = Replied 200 (BData (subscriptions three_due)) /\
  forall s, In s (subscriptions three_due)
            <-> In s (subscriptions three_due) /\ user s = "user1".
Proof.
  split; [reflexivity |].
  exact (proj2 (listing_returns_exactly_the_callers_subscriptions as_user1 "user1"
                  three_due (subscriptions three_due) eq_refl)).
Defined.

(** X14: the listing never answers 401: its test of [req.user] comes after the
    ownership test has read [req.user._id], so a request without a user
    ends in a 500, and a request for another user's list in a 403. *)
Theorem listing_never_answers_401
    (requester : option AuthUser) (userId : string) (w : World) :
  (forall body, getUserSubscriptions requester userId w <> Replied 401 body) /\
  (requester = None ->
   exists body, getUserSubscriptions requester userId w = Replied 500 body) /\
  (forall uid, requester = Some (mkAuthUser (Some uid)) -> uid <> userId ->
   exists body, getUserSubscriptions requester userId w = Replied 403 body).
Proof.
  unfold getUserSubscriptions, caught. split; [| split].
  - intros body.
    destruct requester as [[[uid |]] |]; cbn [auth_id]; try discriminate.
    destruct (negb (String.eqb uid userId)); [discriminate |].
    destruct (dbFault w); discriminate.
  - intros ->. eexists. reflexivity.
  - intros uid -> Hne. apply String.eqb_neq in Hne. cbn. rewrite Hne. cbn.
    eexists. reflexivity.
Qed.

Lemma delete_ok_inv (requester : option AuthUser) (id : string) (w : World)
    (body : Body) :
  fst (deleteSubscription requester id w) = Replied 200 body ->
  exists doc,
    findDoc id (subscriptions w) = Some doc /\
    requester = Some (mkAuthUser (Some (user doc))) /\
    snd (deleteSubscription requester id w)
      = mkWorld (deleteDoc id (subscriptions w)) None (workflowRuns w).
Proof.
  unfold deleteSubscription, caught.
  destruct requester as [[[uid |]] |]; cbn [fst snd auth_id]; try discriminate.
  destruct (dbFault w); cbn [fst snd]; try discriminate.
  destruct (findDoc id (subscriptions w)) as [doc |] eqn:Hdoc; cbn [fst snd];
    try discriminate.
  destruct (String.eqb_spec (user doc) uid) as [E | N]; cbn [negb fst snd];
    try discriminate.
  intros _. exists doc. subst uid. auto.
Qed.

(** X15: only a delete that answers 200 changes anything; it is answered only
    to the owner of the subscription, removes that document, and leaves the
    workflow runs as they are (a pending run is not canceled). *)
Theorem only_the_owner_deletes
    (requester : option AuthUser) (id : string) (w : World) :
  let r := fst (deleteSubscription requester id w) in
  let w' := snd (deleteSubscription requester id w) in
  ((forall body, r <> Replied 200 body) -> w' = w) /\
  (forall body, r = Replied 200 body ->
     exists doc,
       findDoc id (subscriptions w) = Some doc /\
       requester = Some (mkAuthUser (Some (user doc))) /\
       subscriptions w' = deleteDoc id (subscriptions w) /\
       S (List.length (subscriptions w')) = List.length (subscriptions w) /\
       workflowRuns w' = workflowRuns w).
Proof.
  intros r w'. split.
  - subst r w'. unfold deleteSubscription, caught.
    destruct requester as [[[uid |]] |]; cbn [fst snd auth_id]; try reflexivity.
    destruct (dbFault w); cbn [fst snd]; try reflexivity.
    destruct (findDoc id (subscriptions w)) as [doc |]; cbn [fst snd]; try reflexivity.
    destruct (negb (String.eqb (user doc) uid)); cbn [fst snd]; try reflexivity.
    intros Hno. exfalso. eapply Hno. reflexivity.
  - intros body Hok. destruct (delete_ok_inv requester id w body Hok)
      as [doc [Hdoc [Hreq Hw']]].
    exists doc. subst w'. rewrite Hw'. cbn [subscriptions workflowRuns].
    repeat split; trivial. now apply (deleteDoc_length id _ doc).
Qed.

(** X16: when ids are unique in storage, a deleted subscription can no longer
    be found, every other one is found as before, and deleting it again
    answers 404 and changes nothing. *)
Theorem deleted_subscription_is_gone
    (requester : option AuthUser) (id : string) (w : World) (body : Body) :
  NoDup (map _id (subscriptions w)) ->
  fst (deleteSubscription requester id w) = Replied 200 body ->
  let w' := snd (deleteSubscription requester id w) in
  findDoc id (subscriptions w') = None /\
  (forall id', id' <> id -> findDoc id' (subscriptions w') = findDoc id' (subscriptions w)) /\
  deleteSubscription requester id w'
    = (Replied 404 (BError "Subscription not found"), w').
Proof.
  intros Hnd Hok w'.
  destruct (delete_ok_inv requester id w body Hok) as [doc [Hdoc [Hreq Hw']]].
  subst w'. rewrite Hw'. cbn [subscriptions].
  assert (findDoc id (deleteDoc id (subscriptions w)) = None) as Hgone
    by now apply findDoc_deleteDoc_same.
  split; [exact Hgone |]. split.
  - intros id' Hne. now apply findDoc_deleteDoc_other.
  - unfold deleteSubscription. rewrite Hreq. cbn [auth_id dbFault subscriptions].
    rewrite Hgone. reflexivity.
Qed.

Lemma deleted_subscription_is_gone_witness :
  NoDup (map _id (subscriptions three_due)) /\
  fst (deleteSubscription as_user1 "sub2" three_due)
    = Replied 200 (BMessage "Subscription deleted successfully") /\
  findDoc "sub2" (subscriptions (snd (deleteSubscription as_user1 "sub2" three_due)))
    = None.
Proof.
  assert (NoDup (map _id (subscriptions three_due))) as Hnd.
  { cbn. repeat constructor; cbn; intuition discriminate. }
  split; [exact Hnd |]. split; [reflexivity |].
  exact (proj1 (deleted_subscription_is_gone as_user1 "sub2" three_due
                  (BMessage "Subscription deleted successfully") Hnd eq_refl)).
Defined.

(** X17: deleting a subscription does not cancel the workflow run started for
    it, but the run, whenever it executes afterwards, finds nothing and
    returns without sending anything. *)
Theorem run_of_a_deleted_subscription_sends_nothing
    (users : ObjectId -> option User) (mailer : Z -> ReminderMail -> option Error)
    (requester : option AuthUser) (id : string) (w : World) (body : Body) (t0 : Z) :
  NoDup (map _id (subscriptions w)) ->
  fst (deleteSubscription requester id w) = Replied 200 body ->
  let w' := snd (deleteSubscription requester id w) in
  workflowRuns w' = workflowRuns w /\
  run (storage_host users mailer w') t0 id =
    (Returned (mkReturn false "Subscription not found" None None),
     mkRunState t0 [Fetched "get-subscription" id None]).
Proof.
  intros Hnd Hok w'.
  destruct (delete_ok_inv requester id w body Hok) as [doc [Hdoc [Hreq Hw']]].
  subst w'. rewrite Hw'. split; [reflexivity |].
  unfold run, sendReminders, fetchSubscriptionById, run_findById, bind, now, record, ret.
  cbn [clock trace findById storage_host]. unfold findById_populated.
  cbn [dbFault subscriptions]. rewrite (findDoc_deleteDoc_same id _ Hnd). reflexivity.
Qed.

Lemma run_of_a_deleted_subscription_sends_nothing_witness :
  let w := mkWorld (subscriptions three_due) None [request_for accepting "sub2"] in
  NoDup (map _id (subscriptions w)) /\
  fst (deleteSubscription as_user1 "sub2" w)
    = Replied 200 (BMessage "Subscription deleted successfully") /\
  workflowRuns (snd (deleteSubscription as_user1 "sub2" w))
    = [request_for accepting "sub2"] /\
  mails (trace (snd (run (storage_host accounts delivering
                            (snd (deleteSubscription as_user1 "sub2" w))) 0 "sub2")))
    = [].
Proof.
  assert (NoDup (map _id (subscriptions three_due))) as Hnd.
  { cbn. repeat constructor; cbn; intuition discriminate. }
  split; [exact Hnd |]. split; [reflexivity |].
  destruct (run_of_a_deleted_subscription_sends_nothing accounts delivering as_user1 "sub2"
              (mkWorld (subscriptions three_due) None [request_for accepting "sub2"])
              (BMessage "Subscription deleted successfully") 0 Hnd eq_refl)
    as [Hruns Hrun].
  split; [exact Hruns |]. rewrite Hrun. reflexivity.
Defined.

(** X18: a client cannot create a subscription for somebody else: whatever
    [user] the request body names, the controller behaves as if the body
    named none, the owner being taken from the authenticated user. *)
Theorem creation_ignores_the_user_named_in_the_body
    (svc : Services) (body : Subscription ObjectId) (other : ObjectId)
    (requester : option AuthUser) (w : World) :
  createSubscription svc (mkRequest (with_user body other) requester) w
  = createSubscription svc (mkRequest body requester) w.
Proof.
  unfold createSubscription. cbn [req_user req_body].
  destruct requester as [[[uid |]] |]; reflexivity.
Qed.

(** X19: creation is all or nothing. Either the controller answers 201 with the
    stored document, which has been appended to the storage, and at most
    one workflow run has been started, for that document; or it answers
    with an error body and nothing has changed: no document, no run. *)
Theorem creation_is_all_or_nothing (svc : Services) (req : Request) (w : World) :
  let r := fst (createSubscription svc req w) in
  let w' := snd (createSubscription svc req w) in
  (exists sub,
      r = Responded 201 (JCreated sub) /\
      subscriptions w' = (subscriptions w ++ [sub])%list /\
      (workflowRuns w' = workflowRuns w \/
       workflowRuns w' = (workflowRuns w ++ [request_for svc (_id sub)])%list)) \/
  (w' = w /\ exists code msg, r = Responded code (JError msg)).
Proof.
  unfold createSubscription.
  destruct (req_user req) as [[[uid |]] |]; cbn [auth_id fst snd];
    try (right; split; [reflexivity | eexists _, _; reflexivity]).
  unfold Subscription_create.
  destruct (dbFault w) eqn:Hdb; cbn [fst snd];
    try (right; split; [reflexivity | eexists _, _; reflexivity]).
  destruct (mongoCreate svc (subscriptions w) _) as [e | sub]; cbn [fst snd];
    try (right; split; [reflexivity | eexists _, _; reflexivity]).
  left. exists sub. split; [reflexivity |].
  unfold scheduleReminderWorkflow. cbn [workflowRuns subscriptions dbFault].
  fold (request_for svc (_id sub)).
  destruct (upstashTrigger svc (workflowRuns w) (request_for svc (_id sub)));
    cbn [subscriptions workflowRuns]; auto.
Qed.

End SubscriptionHandlersFacts.

(** ** The [authorize] middleware *)

Module AuthFacts.
Import Dispatch Subscriptions Handlers SubscriptionHandlers Auth Scenarios MoreScenarios.

Lemma split_without_separator (sep : Ascii.ascii) (s : string) :
  occurs sep s = false -> split sep s = [s].
Proof.
  induction s as [| c rest IH]; cbn; [reflexivity |].
  intros H. apply orb_false_iff in H. destruct H as [Hc Hrest].
  rewrite Hc, (IH Hrest). reflexivity.
Qed.

Lemma truthy_nonempty (tok : string) : tok <> "" -> truthy (Some tok) = true.
Proof. intros H. unfold truthy. apply String.eqb_neq in H. now rewrite H. Qed.

(** What the middleware does once it has picked a non-empty token. *)
Lemma authorize_with_token (a : AuthServices) (c : Credentials) (tok : string) :
  token_of c = Some tok -> tok <> "" ->
  authorize a c =
    match jwt_verify a tok with
    | None => Rejected 401 (BPlain "Invalid or expired token")
    | Some userId =>
        match User_findById a userId with
        | inl _ => Rejected 401 (BPlain "Invalid or expired token")
        | inr user => Passed user
        end
    end.
Proof.
  intros Htok Hne. unfold authorize. rewrite Htok, (truthy_nonempty tok Hne). reflexivity.
Qed.

(** X20: the token of a header ["Bearer <token>"] is read back as it was put
    in, whatever the cookie holds: the request passes exactly when that
    token verifies and the lookup of its user does not fail. *)
Theorem bearer_token_is_read_back (a : AuthServices) (tok : string)
    (cookie : option string) :
  tok <> "" -> occurs " "%char tok = false ->
  token_of (mkCredentials (Some ("Bearer " ++ tok)) cookie) = Some tok /\
  authorize a (mkCredentials (Some ("Bearer " ++ tok)) cookie) =
    match jwt_verify a tok with
    | None => Rejected 401 (BPlain "Invalid or expired token")
    | Some userId =>
        match User_findById a userId with
        | inl _ => Rejected 401 (BPlain "Invalid or expired token")
        | inr user => Passed user
        end
    end.
Proof.
  intros Hne Hsp.
  assert (token_of (mkCredentials (Some ("Bearer " ++ tok)) cookie) = Some tok) as Htok.
  { unfold token_of. cbn. rewrite (split_without_separator _ _ Hsp). reflexivity. }
  split; [exact Htok |]. now apply authorize_with_token.
Qed.

Lemma bearer_token_is_read_back_witness :
  "tok1" <> "" /\ occurs " "%char "tok1" = false /\
  authorize tokens (mkCredentials (Some "Bearer tok1") None) = Passed as_user1.
Proof.
  split; [discriminate |]. split; [reflexivity |].
  destruct (bearer_token_is_read_back tokens "tok1" None) as [_ H];
    [discriminate | reflexivity |].
  change (authorize tokens (mkCredentials (Some ("Bearer " ++ "tok1")) None)
          = Passed as_user1).
  rewrite H. reflexivity.
Defined.

(** X21: a header that starts with "Bearer" shadows the cookie: the cookie is
    not consulted even when the header carries no usable token. *)
Theorem bearer_header_shadows_the_cookie (a : AuthServices) (header : string)
    (cookie cookie' : option string) :
  String.prefix "Bearer" header = true ->
  authorize a (mkCredentials (Some header) cookie)
  = authorize a (mkCredentials (Some header) cookie').
Proof.
  intros Hp. unfold authorize, token_of. cbn [authorization cookie_token].
  rewrite Hp. destruct header as [| ch rest]; [discriminate Hp | reflexivity].
Qed.

Lemma bearer_header_shadows_the_cookie_witness :
  String.prefix "Bearer" "Bearer" = true /\
  authorize tokens (mkCredentials (Some "Bearer") (Some "tok1"))
    = Rejected 401 (BPlain "unauthorized") /\
  authorize tokens (mkCredentials None (Some "tok1")) = Passed as_user1.
Proof.
  split; [reflexivity |]. split; [| reflexivity].
  rewrite (bearer_header_shadows_the_cookie tokens "Bearer" (Some "tok1") None eq_refl).
  reflexivity.
Defined.

(** X22: the middleware lets a request through only with a non-empty token
    that [jwt.verify] accepts, and the user it attaches is the one looked
    up for the token's user id. *)
Theorem passing_requires_a_verified_token (a : AuthServices) (c : Credentials)
    (u : option AuthUser) :
  authorize a c = Passed u ->
  exists tok userId,
    token_of c = Some tok /\ tok <> "" /\
    jwt_verify a tok = Some userId /\ User_findById a userId = inr u.
Proof.
  unfold authorize.
  destruct (token_of c) as [tok |] eqn:Htok; cbn [truthy negb]; [| discriminate].
  destruct (String.eqb_spec tok "") as [E | N]; cbn [negb]; [discriminate |].
  destruct (jwt_verify a tok) as [userId |] eqn:Hv; [| discriminate].
  destruct (User_findById a userId) as [e | user] eqn:Hfind; [discriminate |].
  intros H. injection H as <-. exists tok, userId. repeat split; trivial.
Qed.

Lemma passing_requires_a_verified_token_witness :
  authorize tokens (mkCredentials None (Some "tok1")) = Passed as_user1 /\
  exists tok userId,
    token_of (mkCredentials None (Some "tok1")) = Some tok /\ tok <> "" /\
    jwt_verify tokens tok = Some userId /\ User_findById tokens userId = inr as_user1.
Proof.
  split; [reflexivity |].
  exact (passing_requires_a_verified_token tokens (mkCredentials None (Some "tok1"))
           as_user1 eq_refl).
Defined.

(** X23: a valid token whose account has been removed is let through with no
    user attached. The guarded handlers then answer differently: creating
    and deleting answer 401 and change nothing, listing answers 500. *)
Theorem removed_account_is_let_through_without_a_user
    (a : AuthServices) (c : Credentials) (tok : string) (userId : ObjectId)
    (svc : Services) (body : Subscription ObjectId) (id listed : string) (w : World) :
  token_of c = Some tok -> tok <> "" ->
  jwt_verify a tok = Some userId -> User_findById a userId = inr None ->
  authorize a c = Passed None /\
  guarded a c (fun u => createSubscription svc (mkRequest body u) w)
    = inr (Responded 401 (JError "User not authenticated"), w) /\
  guarded a c (fun u => deleteSubscription u id w)
    = inr (Replied 401 (BError "User not authenticated"), w) /\
  guarded a c (fun u => getUserSubscriptions u listed w)
    = inr (Replied 500 (BError "Cannot read properties of null (reading '_id')")).
Proof.
  intros Htok Hne Hv Hu.
  assert (authorize a c = Passed None) as Hpass
    by (rewrite (authorize_with_token a c tok Htok Hne), Hv, Hu; reflexivity).
  unfold guarded. rewrite Hpass. repeat split; reflexivity.
Qed.

Lemma removed_account_is_let_through_without_a_user_witness :
  token_of (mkCredentials (Some "Bearer tok2") None) = Some "tok2" /\
  jwt_verify tokens "tok2" = Some "user2" /\
  User_findById tokens "user2" = inr None /\
  authorize tokens (mkCredentials (Some "Bearer tok2") None) = Passed None.
Proof.
  split; [reflexivity |]. split; [reflexivity |]. split; [reflexivity |].
  refine (proj1 (removed_account_is_let_through_without_a_user tokens
                   (mkCredentials (Some "Bearer tok2") None) "tok2" "user2"
                   accepting (stored "sub9" (30 * DAY) active) "sub1" "user2" one_due
                   eq_refl _ eq_refl eq_refl)).
  discriminate.
Defined.

End AuthFacts.

(** ** The subscription card *)

Module CardFacts.
Import Dispatch Card Scenarios.

Lemma card_days_spec (renewal today : Z) :
  DateMath.is_ceiling_days (renewal - today) (DateMath.getDaysUntilRenewal renewal today).
Proof.
  unfold DateMath.getDaysUntilRenewal.
  change (1000 * 60 * 60 * 24) with DateMath.MILLISECONDS_A_DAY.
  apply DateMathFacts.Math_ceil_spec.
Qed.

Lemma card_class_cases (renewal today : Z) :
  (getStatusClass active renewal today = status_overdue <-> renewal <= today) /\
  (getStatusClass active renewal today = status_warning
   <-> today < renewal <= today + 7 * DateMath.MILLISECONDS_A_DAY).
Proof.
  pose proof (card_days_spec renewal today) as C.
  unfold DateMath.is_ceiling_days, DateMath.MILLISECONDS_A_DAY in *.
  unfold getStatusClass. cbn [Status_eqb].
  destruct (Z.leb_spec (DateMath.getDaysUntilRenewal renewal today) 7) as [L7 | G7];
    destruct (Z.gtb_spec (DateMath.getDaysUntilRenewal renewal today) 0) as [G0 | L0];
    cbn [andb];
    try (destruct (Z.leb_spec (DateMath.getDaysUntilRenewal renewal today) 0) as [L | G]);
    repeat split; intros; try discriminate; try reflexivity; try lia.
Qed.

(** X24: the class the card gives an active subscription is decided by the
    renewal date to the millisecond: overdue when it is not after now,
    warning when it is after now and at most 7 days ahead, active when it
    is more than 7 days ahead. *)
Theorem card_class_by_renewal_date (renewal today : Z) :
  (getStatusClass active renewal today = status_overdue <-> renewal <= today) /\
  (getStatusClass active renewal today = status_warning
   <-> today < renewal <= today + 7 * DateMath.MILLISECONDS_A_DAY) /\
  (getStatusClass active renewal today = status_active
   <-> today + 7 * DateMath.MILLISECONDS_A_DAY < renewal).
Proof.
  destruct (card_class_cases renewal today) as [Ho Hw].
  split; [exact Ho |]. split; [exact Hw |].
  assert (getStatusClass active renewal today = status_canceled -> False) as Nc.
  { unfold getStatusClass. cbn [Status_eqb].
    destruct (_ && _); [discriminate |]. destruct (_ <=? 0); discriminate. }
  assert (getStatusClass active renewal today = status_inactive -> False) as Ni.
  { unfold getStatusClass. cbn [Status_eqb].
    destruct (_ && _); [discriminate |]. destruct (_ <=? 0); discriminate. }
  destruct (getStatusClass active renewal today) eqn:E;
    try (exfalso; auto; fail); split; intros H; try discriminate; try reflexivity.
  - assert (today < renewal <= today + 7 * DateMath.MILLISECONDS_A_DAY) by (now apply Hw).
    exfalso. lia.
  - assert (renewal <= today) by (now apply Ho).
    exfalso. unfold DateMath.MILLISECONDS_A_DAY in *. lia.
  - destruct (Z_le_gt_dec renewal today) as [L | G].
    + apply Ho in L. discriminate L.
    + assert (today < renewal <= today + 7 * DateMath.MILLISECONDS_A_DAY -> False) as Nw
        by (intros W; apply Hw in W; discriminate W).
      lia.
Qed.

(** X25: the card and the sweep draw the same window, up to its first instant:
    for a renewal date other than now, the card shows the warning exactly
    when the sweep selects the subscription; at a renewal date equal to
    now the sweep still selects an active subscription that the card
    already shows as overdue. *)
Theorem card_warning_matches_the_sweep_window (s : Subscription ObjectId) (today : Z) :
  (renewalDate s <> today ->
   (getStatusClass (status s) (renewalDate s) today = status_warning
    <-> In s (find_due today (today + 7 * DateMath.MILLISECONDS_A_DAY) [s]))) /\
  (status s = active -> renewalDate s = today ->
   getStatusClass (status s) (renewalDate s) today = status_overdue /\
   In s (find_due today (today + 7 * DateMath.MILLISECONDS_A_DAY) [s])).
Proof.
  destruct (card_class_cases (renewalDate s) today) as [Ho Hw].
  assert (In s [s]) as Hin by now left.
  split.
  - intros Hne. rewrite HandlersFacts.find_due_spec.
    destruct (status s) eqn:Hs.
    + rewrite Hw. split; [intros H; repeat split; trivial; lia | intros [_ [_ H]]; lia].
    + split; [discriminate | intros [_ [H _]]; discriminate H].
    + split; [discriminate | intros [_ [H _]]; discriminate H].
  - intros Hs E. rewrite Hs. split; [apply Ho; lia |].
    apply HandlersFacts.find_due_spec. unfold DateMath.MILLISECONDS_A_DAY.
    repeat split; trivial; lia.
Qed.

(** X26: for a renewal that is not in the past, the card's day count (ceiling)
    is the workflow's (floor) or one more, and they agree exactly when the
    remaining time is a whole number of days. *)
Theorem card_days_exceed_workflow_days_by_at_most_one (renewal today : Z) :
  today <= renewal ->
  let w := DateMath.diff_day renewal today in
  let c := DateMath.getDaysUntilRenewal renewal today in
  w <= c <= w + 1 /\
  (c = w <-> (renewal - today) mod DateMath.MILLISECONDS_A_DAY = 0).
Proof.
  intros Hle w c.
  pose proof (card_days_spec renewal today) as C.
  pose proof (DateMathFacts.diff_day_floor renewal today Hle) as F.
  fold w in F. fold c in C.
  unfold DateMath.is_ceiling_days, DateMath.is_floor_days, DateMath.MILLISECONDS_A_DAY in *.
  split; [lia |].
  pose proof (Z.div_mod (renewal - today) 86400000 ltac:(lia)) as E.
  pose proof (Z.mod_pos_bound (renewal - today) 86400000 ltac:(lia)) as B.
  split; intros H.
  - assert ((renewal - today) = w * 86400000) as Ew by lia.
    rewrite Ew. apply Z.mod_mul. lia.
  - assert (renewal - today = 86400000 * ((renewal - today) / 86400000)) as Em by lia.
    lia.
Qed.

Lemma card_days_exceed_workflow_days_by_at_most_one_witness :
  0 <= 535680000 /\
  DateMath.diff_day 535680000 0 = 6 /\ DateMath.getDaysUntilRenewal 535680000 0 = 7 /\
  6 <= 7 <= 6 + 1.
Proof.
  split; [lia |]. split; [reflexivity |]. split; [reflexivity |].
  exact (proj1 (card_days_exceed_workflow_days_by_at_most_one 535680000 0 ltac:(lia))).
Defined.

End CardFacts.
